(** * Dental X-ray analysis page ([app.py]): a shallow embedding

    [app.py] is a Streamlit script: the whole file is re-executed from top to
    bottom on every user interaction (a "render pass").  The embedding below
    follows the script statement by statement.

    - The session store [st.session_state] is a record with one optional field
      per key the script uses; the patient-history dictionary, whose keys and
      value types are fixed by the form, is a record of optional fields.
    - A render pass is a computation in a small monad that threads the session
      store, accumulates the sequence of things rendered and library calls
      made, and ends normally, by [st.stop()], or by an exception.
    - Widget return values, the uploaded file, the secrets store and the
      process environment are the inputs of a pass.
    - OpenCV and the Gemini client are interfaces (type classes): the script
      only calls them. *)

From Stdlib Require Import ZArith NArith QArith List Lia.
From Stdlib Require Import Strings.String Strings.Ascii Strings.Byte.
From stdpp Require Import base gmap strings list pretty.

Local Open Scope Z_scope.

(** ** Python values, exceptions, results *)

(** [datetime.date], as returned by [st.date_input]. *)
Record date := Date { year : Z; month : Z; day : Z }.

(** A Python exception (a subclass of [Exception]); [str(e)] is its message. *)
Record exn := Exn { str : string }.

(** What a call into a library gives back: a value, or a raised exception. *)
Inductive result (A : Type) :=
| Ok (a : A)
| Raise (e : exn).
Arguments Ok {A} a.
Arguments Raise {A} e.

(** ** Images *)

(** A single-channel 8-bit image, as [cv2.imdecode(..., IMREAD_GRAYSCALE)]
    produces it: a numpy array of shape [(rows, cols)] with row-major
    samples. *)
Record ImageMatrix := Mat { rows : nat; cols : nat; samples : list byte }.

Definition shape (m : ImageMatrix) : nat * nat := (rows m, cols m).

(** ** Session store *)

(** The dictionary [st.session_state['patient_history']].  The script only
    ever writes the eight keys below into it, each with a fixed type, so the
    dictionary is a record of optional fields: [None] means the key is
    absent. *)
Record dict := Dict {
  name : option string;
  age : option Z;
  gender : option string;
  medical_history : option (list string);
  dental_complaints : option string;
  previous_treatments : option string;
  smoking : option string;
  last_dental_visit : option date
}.

(** The empty dictionary [{}]. *)
Definition empty_dict : dict :=
  Dict None None None None None None None None.

Definition override {A} (new old : option A) : option A :=
  match new with Some v => Some v | None => old end.

(** [d.update(other)]: every key of [other] is written into [d]. *)
Definition update (d other : dict) : dict :=
  {| name := override (name other) (name d);
     age := override (age other) (age d);
     gender := override (gender other) (gender d);
     medical_history := override (medical_history other) (medical_history d);
     dental_complaints :=
       override (dental_complaints other) (dental_complaints d);
     previous_treatments :=
       override (previous_treatments other) (previous_treatments d);
     smoking := override (smoking other) (smoking d);
     last_dental_visit :=
       override (last_dental_visit other) (last_dental_visit d) |}.

(** [d[key]]: a missing key raises [KeyError], whose [str] is the quoted
    key. *)
Definition getitem {A} (key : string) (field : option A) : result A :=
  match field with
  | Some v => Ok v
  | None => Raise (Exn ("'" +:+ key +:+ "'"))
  end.

(** [st.session_state]: the two keys the script ever touches.  [None] means
    the key is not in the store. *)
Record session_state := Session {
  patient_history : option dict;
  api_key_provided : option bool
}.

(** The store of a fresh session. *)
Definition empty_session : session_state :=
  {| patient_history := None; api_key_provided := None |}.

(** [st.session_state.patient_history]: attribute access on a missing key
    raises. *)
Definition getattr_patient_history (s : session_state) : result dict :=
  match patient_history s with
  | Some d => Ok d
  | None =>
      Raise (Exn "st.session_state has no attribute patient_history")
  end.

(** ** What a render pass does: rendered elements and library calls *)

Inductive call :=
| c_configure (api_key : string)
| c_GenerativeModel (model_name : string)
| c_imdecode (buf : list byte)
| c_fastNlMeansDenoising (src : ImageMatrix) (h template search : Z)
| c_clahe_apply (clip : Q) (tile : Z * Z) (src : ImageMatrix)
| c_imencode (ext : string) (img : ImageMatrix)
| c_b64encode (buf : list byte)
| c_generate_content (prompt : string).

Inductive event :=
| st_set_page_config (page_title page_icon layout : string)
| st_markdown (body : string)
| st_title (body : string)
| st_header (body : string)
| st_subheader (body : string)
| st_error (body : string)
| st_warning (body : string)
| st_write (body : string)
| st_spinner (body : string)
| st_columns
| st_form (key : string)
| st_widget (kind label : string)
| st_image (img : ImageMatrix) (caption : string)
| called (c : call).

(** ** The script monad *)

(** How a statement ends.  [st.stop()] raises Streamlit's [StopException],
    which derives from [BaseException]: [except Exception] does not catch it,
    and the rest of the script is skipped. *)
Inductive outcome (A : Type) :=
| Done (a : A)
| Halt
| Throw (e : exn).
Arguments Done {A} a.
Arguments Halt {A}.
Arguments Throw {A} e.

Definition M (A : Type) : Type :=
  session_state -> outcome A * session_state * list event.

Global Instance M_ret : MRet M := fun A (a : A) => fun s => (Done a, s, []).

Global Instance M_bind : MBind M := fun A B (f : A -> M B) (m : M A) =>
  fun s =>
    match m s with
    | (Done a, s1, l1) =>
        match f a s1 with (o, s2, l2) => (o, s2, l1 ++ l2) end
    | (Halt, s1, l1) => (Halt, s1, l1)
    | (Throw e, s1, l1) => (Throw e, s1, l1)
    end.

Definition emit (e : event) : M unit := fun s => (Done tt, s, [e]).
Definition stop {A} : M A := fun s => (Halt, s, []).
Definition throw {A} (e : exn) : M A := fun s => (Throw e, s, []).
Definition get : M session_state := fun s => (Done s, s, []).
Definition put (s : session_state) : M unit := fun _ => (Done tt, s, []).

(** [try: body except Exception as e: handler e]. *)
Definition try_except {A} (body : M A) (handler : exn -> M A) : M A :=
  fun s =>
    match body s with
    | (Throw e, s1, l1) =>
        match handler e s1 with (o, s2, l2) => (o, s2, l1 ++ l2) end
    | r => r
    end.

(** A library call: it is recorded, then returns or raises. *)
Definition invoke {A} (c : call) (r : result A) : M A :=
  emit (called c) ;;
  match r with
  | Ok a => mret a
  | Raise e => throw e
  end.

(** A result that is not a recorded call (a dictionary lookup, a format). *)
Definition lift {A} (r : result A) : M A :=
  match r with
  | Ok a => mret a
  | Raise e => throw e
  end.

(** ** The libraries the script calls *)

(** [cv2.createCLAHE(clipLimit, tileGridSize)]: the configured filter. *)
Record CLAHE := createCLAHE { clipLimit : Q; tileGridSize : Z * Z }.

(** OpenCV, as far as the script uses it.  [imdecode] is always called with
    [cv2.IMREAD_GRAYSCALE]; it returns [None] when the buffer is not a
    readable image. *)
Class Cv2 := {
  imdecode : list byte -> result (option ImageMatrix);
  fastNlMeansDenoising : ImageMatrix -> Z -> Z -> Z -> result ImageMatrix;
  apply : CLAHE -> ImageMatrix -> result ImageMatrix;
  imencode : string -> ImageMatrix -> result (bool * list byte)
}.

(** [genai.GenerativeModel(name)]: the model handle. *)
Record GenerativeModel := { model_name : string }.

(** The object [generate_content] returns; reading [response.text] can itself
    raise (a blocked response has no text). *)
Record Response := { text : result string }.

(** [google.generativeai], as far as the script uses it. *)
Class Gemini := {
  configure : string -> result unit;
  new_GenerativeModel : string -> result GenerativeModel;
  generate_content : GenerativeModel -> string -> result Response
}.

(** A [GenerativeModel] defines neither [__bool__] nor [__len__]: the handle
    is truthy. *)
Definition bool_of_model (_ : GenerativeModel) : bool := true.

(** ** [base64.b64encode] (RFC 4648, standard alphabet, [=] padding) *)

Module base64.

Definition alphabet : string :=
  "ABCDEFGHIJKLMNOPQRSTUVWXYZabcdefghijklmnopqrstuvwxyz0123456789+/".

Definition pad : ascii := "="%char.

(** The character of a 6-bit group. *)
Definition char_of (n : Z) : ascii :=
  match String.get (Z.to_nat n) alphabet with
  | Some c => c
  | None => pad
  end.

Fixpoint index_from (i : Z) (c : ascii) (s : string) : option Z :=
  match s with
  | EmptyString => None
  | String c' s' => if Ascii.eqb c c' then Some i else index_from (i + 1) c s'
  end.

(** The 6-bit group of a character of the alphabet. *)
Definition index_of (c : ascii) : option Z := index_from 0 c alphabet.

Definition Z_of_byte (b : byte) : Z := Z.of_N (Byte.to_N b).

Definition byte_of_Z (n : Z) : byte :=
  match Byte.of_N (Z.to_N n) with
  | Some b => b
  | None => x00
  end.

(** 24 bits from three bytes, and its four 6-bit groups. *)
Definition pack (a b c : Z) : Z := a * 65536 + b * 256 + c.
Definition sextet (k : Z) (n : Z) : Z := (n / 64 ^ (3 - k)) mod 64.
Definition unpack (s0 s1 s2 s3 : Z) : Z :=
  s0 * 262144 + s1 * 4096 + s2 * 64 + s3.
Definition octet (k : Z) (n : Z) : Z := (n / 256 ^ (2 - k)) mod 256.

Fixpoint encode (l : list byte) : string :=
  match l with
  | [] => EmptyString
  | [a] =>
      let n := pack (Z_of_byte a) 0 0 in
      String (char_of (sextet 0 n)) (String (char_of (sextet 1 n))
        (String pad (String pad EmptyString)))
  | [a; b] =>
      let n := pack (Z_of_byte a) (Z_of_byte b) 0 in
      String (char_of (sextet 0 n)) (String (char_of (sextet 1 n))
        (String (char_of (sextet 2 n)) (String pad EmptyString)))
  | a :: b :: c :: rest =>
      let n := pack (Z_of_byte a) (Z_of_byte b) (Z_of_byte c) in
      String (char_of (sextet 0 n)) (String (char_of (sextet 1 n))
        (String (char_of (sextet 2 n)) (String (char_of (sextet 3 n))
          (encode rest))))
  end.

(** [base64.b64decode] on a padded string over the alphabet; [None] stands
    for [binascii.Error]. *)
Fixpoint decode (s : string) : option (list byte) :=
  match s with
  | EmptyString => Some []
  | String c0 (String c1 (String c2 (String c3 rest))) =>
      s0 ← index_of c0;
      s1 ← index_of c1;
      if Ascii.eqb c3 pad then
        match rest with
        | EmptyString =>
            if Ascii.eqb c2 pad then
              Some [byte_of_Z (octet 0 (unpack s0 s1 0 0))]
            else
              s2 ← index_of c2;
              let n := unpack s0 s1 s2 0 in
              Some [byte_of_Z (octet 0 n); byte_of_Z (octet 1 n)]
        | _ => None
        end
      else
        s2 ← index_of c2;
        s3 ← index_of c3;
        tl ← decode rest;
        let n := unpack s0 s1 s2 s3 in
        Some (byte_of_Z (octet 0 n) :: byte_of_Z (octet 1 n)
                :: byte_of_Z (octet 2 n) :: tl)
  | _ => None
  end.

End base64.

(** [base64.b64encode(buf).decode('utf-8')]. *)
Definition b64encode (buf : list byte) : string := base64.encode buf.

(** ** The inputs of one render pass *)

(** What the outside world hands to one execution of the script: the
    (parsed) secrets store, the process environment, and the current value
    of every widget (Streamlit returns the widget's current value from the
    call that renders it). *)
Record inputs := Inputs {
  secrets : gmap string string;
  environ : gmap string string;
  w_name : string;
  w_age : Z;
  w_gender : string;
  w_medical_history : list string;
  w_dental_complaints : string;
  w_previous_treatments : string;
  w_smoking : string;
  w_last_dental_visit : date;
  w_submit_button : bool;
  w_uploaded_file : option (list byte);
  w_denoise_strength : Z;
  w_contrast_limit : Q;
  w_analysis_type : list string;
  w_generate_analysis : bool
}.

(** A widget call renders the widget and returns its current value. *)
Definition widget {A} (kind label : string) (v : A) : M A :=
  emit (st_widget kind label) ;; mret v.

(** ** The fixed texts of the page *)

Definition css : string := "
    <style>
    .main {
        padding: 2rem;
    }
    .stButton>button {
        width: 100%;
        background-color: #0083B8;
        color: white;
    }
    .disclaimer {
        background-color: #FFF3CD;
        padding: 1rem;
        border-radius: 5px;
        margin: 1rem 0;
    }
    </style>
".

Definition page_title : string := "Advanced Dental X-Ray Analysis System".
Definition page_icon : string := "🦷".
Definition main_title : string := "🦷 Advanced Dental X-Ray Analysis System".
Definition missing_key_message : string :=
  "⚠️ Please set the API key in Streamlit Secrets or environment variables.".
Definition unreadable_message : string :=
  "Error: Unable to read the image. Please try another file.".
Definition disclaimer_title : string := "### Disclaimer".
Definition disclaimer_text : string :=
  "This analysis is for informational purposes only. Consult a professional.".
Definition footer_text : string :=
  "<p style='text-align: center;'>© 2024 Advanced Dental X-Ray Analysis System</p>".
Definition GEMINI_API_KEY : string := "GEMINI_API_KEY".

(** ** Prompt builder (lines 137-155) *)

(** [', '.join(l)]. *)
Definition join (l : list string) : string := String.concat ", " l.

(** The f-string, with every interpolated value already read. *)
Definition prompt_template
    (p_name : string) (p_age : Z) (p_gender : string)
    (p_medical_history : list string)
    (p_complaints p_treatments p_smoking : string)
    (analysis_type : list string) : string :=
  "
                    Please analyze this dental X-ray image with the following context:

                    Patient Information:
                    - Name: " +:+ p_name +:+ "
                    - Age: " +:+ pretty p_age +:+ "
                    - Gender: " +:+ p_gender +:+ "
                    - Medical History: " +:+ join p_medical_history +:+ "
                    - Current Complaints: " +:+ p_complaints +:+ "
                    - Previous Treatments: " +:+ p_treatments +:+ "
                    - Smoking Status: " +:+ p_smoking +:+ "

                    Focus Areas: " +:+ join analysis_type +:+ "

                    Provide:
                    1. Identified abnormalities
                    2. Potential diagnosis
                    3. Recommendations
                    ".

(** A list written out with a comma and a space between its items, as the
    specification's "comma-joined" says: nothing for the empty list, the
    item itself for a single one. *)
Fixpoint comma_joined (items : list string) : string :=
  match items with
  | [] => EmptyString
  | [x] => x
  | x :: rest => x +:+ ", " +:+ comma_joined rest
  end.

(** The prompt as the specification describes it: a fixed sequence of
    lines, [None] for a blank one, holding the patient fields, the focus
    areas and the three instruction bullets. *)
Definition prompt_lines
    (p_name : string) (p_age : Z) (p_gender : string)
    (p_medical_history : list string)
    (p_complaints p_treatments p_smoking : string)
    (focus_areas : list string) : list (option string) :=
  [ None;
    Some "Please analyze this dental X-ray image with the following context:";
    None;
    Some "Patient Information:";
    Some ("- Name: " +:+ p_name);
    Some ("- Age: " +:+ pretty p_age);
    Some ("- Gender: " +:+ p_gender);
    Some ("- Medical History: " +:+ comma_joined p_medical_history);
    Some ("- Current Complaints: " +:+ p_complaints);
    Some ("- Previous Treatments: " +:+ p_treatments);
    Some ("- Smoking Status: " +:+ p_smoking);
    None;
    Some ("Focus Areas: " +:+ comma_joined focus_areas);
    None;
    Some "Provide:";
    Some "1. Identified abnormalities";
    Some "2. Potential diagnosis";
    Some "3. Recommendations" ].

(** The indentation the f-string carries over from the source (twenty
    spaces), and the line feed. *)
Definition indent : string := "                    ".
Definition newline : string := "
".

(** Lines laid out as the triple-quoted literal lays them out: each one
    indented unless blank and ended by a line feed, then the indentation of
    the closing quotes. *)
Fixpoint layout (lines : list (option string)) : string :=
  match lines with
  | [] => indent
  | l :: rest =>
      match l with
      | None => EmptyString
      | Some t => indent +:+ t
      end +:+ newline +:+ layout rest
  end.

(** Evaluation of the f-string against the stored dictionary: the
    interpolations are evaluated left to right, and the first missing key
    raises [KeyError]. *)
Definition build_prompt (d : dict) (analysis_type : list string)
    : result string :=
  match getitem "name" (name d) with Raise e => Raise e | Ok p_name =>
  match getitem "age" (age d) with Raise e => Raise e | Ok p_age =>
  match getitem "gender" (gender d) with Raise e => Raise e | Ok p_gender =>
  match getitem "medical_history" (medical_history d) with
  | Raise e => Raise e | Ok p_history =>
  match getitem "dental_complaints" (dental_complaints d) with
  | Raise e => Raise e | Ok p_complaints =>
  match getitem "previous_treatments" (previous_treatments d) with
  | Raise e => Raise e | Ok p_treatments =>
  match getitem "smoking" (smoking d) with Raise e => Raise e | Ok p_smoking =>
    Ok (prompt_template p_name p_age p_gender p_history p_complaints
          p_treatments p_smoking analysis_type)
  end end end end end end end.

(** ** The script *)

Section Script.

Context {cv : Cv2} {ai : Gemini}.

(** Lines 10-38: page configuration, style sheet, title, rule. *)
Definition page_top : M unit :=
  emit (st_set_page_config page_title page_icon "wide") ;;
  emit (st_markdown css) ;;
  emit (st_title main_title) ;;
  emit (st_markdown "---").

(** Lines 41-45: both keys are created on first access only. *)
Definition init_session_state : M unit :=
  s ← get;
  (if patient_history s is None
   then put {| patient_history := Some empty_dict;
               api_key_provided := api_key_provided s |}
   else mret tt) ;;
  s ← get;
  if api_key_provided s is None
  then put {| patient_history := patient_history s;
              api_key_provided := Some false |}
  else mret tt.

(** Line 48: [st.secrets.get(KEY, os.getenv(KEY))]. *)
Definition lookup_api_key (i : inputs) : option string :=
  match secrets i !! GEMINI_API_KEY with
  | Some v => Some v
  | None => environ i !! GEMINI_API_KEY
  end.

(** [not api_key]: [None] and the empty string are falsy. *)
Definition no_api_key (k : option string) : bool :=
  match k with
  | None => true
  | Some v => String.eqb v ""
  end.

(** Lines 48-51. *)
Definition resolve_api_key (i : inputs) : M string :=
  match lookup_api_key i with
  | Some v =>
      if String.eqb v ""
      then emit (st_error missing_key_message) ;; stop
      else mret v
  | None => emit (st_error missing_key_message) ;; stop
  end.

(** Lines 54-59. *)
Definition configure_gemini (api_key : string) : M GenerativeModel :=
  try_except
    (invoke (c_configure api_key) (configure api_key) ;;
     invoke (c_GenerativeModel "gemini-pro") (new_GenerativeModel "gemini-pro"))
    (fun e =>
       emit (st_error ("Error configuring Gemini API: " +:+ str e)) ;; stop).

(** Lines 62-78: the sidebar form overwrites the stored record with the
    current widget values on every pass. *)
Definition sidebar (i : inputs) : M bool :=
  emit (st_header "Patient Information") ;;
  emit (st_form "patient_history") ;;
  s ← get;
  d ← lift (getattr_patient_history s);
  v_name ← widget "text_input" "Patient Name" (w_name i);
  v_age ← widget "number_input" "Age" (w_age i);
  v_gender ← widget "selectbox" "Gender" (w_gender i);
  v_history ← widget "multiselect" "Medical History" (w_medical_history i);
  v_complaints ←
    widget "text_area" "Current Dental Complaints" (w_dental_complaints i);
  v_treatments ←
    widget "text_area" "Previous Dental Treatments" (w_previous_treatments i);
  v_smoking ← widget "selectbox" "Smoking Status" (w_smoking i);
  v_visit ← widget "date_input" "Last Dental Visit" (w_last_dental_visit i);
  put {| patient_history :=
           Some (update d
                   {| name := Some v_name;
                      age := Some v_age;
                      gender := Some v_gender;
                      medical_history := Some v_history;
                      dental_complaints := Some v_complaints;
                      previous_treatments := Some v_treatments;
                      smoking := Some v_smoking;
                      last_dental_visit := Some v_visit |});
         api_key_provided := api_key_provided s |} ;;
  widget "form_submit_button" "Save Patient Information" (w_submit_button i).

(** Lines 107-109: denoising, then local contrast enhancement. *)
Definition enhance (img : ImageMatrix) (denoise_strength : Z)
    (contrast_limit : Q) : M ImageMatrix :=
  img_processed ←
    invoke (c_fastNlMeansDenoising img denoise_strength 7 21)
           (fastNlMeansDenoising img denoise_strength 7 21);
  let clahe := createCLAHE contrast_limit (8, 8) in
  invoke (c_clahe_apply contrast_limit (8, 8) img_processed)
         (apply clahe img_processed).

(** Lines 115-116: PNG, then base64.  The success flag of [imencode] is
    dropped. *)
Definition encode (img_processed : ImageMatrix) : M string :=
  r ← invoke (c_imencode ".png" img_processed) (imencode ".png" img_processed);
  let img_encoded := snd r in
  invoke (c_b64encode img_encoded) (Ok (b64encode img_encoded)).

(** Lines 83-124: the left column.  It returns [uploaded_file] and, when the
    image went through, [base64_image]. *)
Definition col1 (i : inputs) : M (option (list byte) * option string) :=
  emit (st_header "X-Ray Upload & Processing") ;;
  uploaded_file ←
    widget "file_uploader" "Upload a dental X-ray image" (w_uploaded_file i);
  match uploaded_file with
  | None => mret (uploaded_file, None)
  | Some content =>
      try_except
        (let file_bytes := content in
         img ← invoke (c_imdecode file_bytes) (imdecode file_bytes);
         match img with
         | None => emit (st_error unreadable_message) ;; stop
         | Some img =>
             emit (st_image img "Original X-ray") ;;
             emit (st_subheader "Image Enhancement Options") ;;
             denoise_strength ←
               widget "slider" "Denoising Strength" (w_denoise_strength i);
             contrast_limit ←
               widget "slider" "Contrast Enhancement" (w_contrast_limit i);
             try_except
               (img_processed ← enhance img denoise_strength contrast_limit;
                emit (st_image img_processed "Enhanced X-ray") ;;
                base64_image ← encode img_processed;
                mret (uploaded_file, Some base64_image))
               (fun e =>
                  emit (st_error ("Error processing image: " +:+ str e)) ;;
                  stop)
         end)
        (fun e => emit (st_error ("Error reading image: " +:+ str e)) ;; stop)
  end.

(** Line 127: the condition that opens the right column.  [and]
    short-circuits: the store is only read when a file is uploaded. *)
Definition analysis_gate (uploaded_file : option (list byte)) : M bool :=
  match uploaded_file with
  | None => mret false
  | Some _ =>
      s ← get;
      d ← lift (getattr_patient_history s);
      match name d with
      | None => mret false
      | Some v => mret (negb (String.eqb v ""))
      end
  end.

(** Lines 136-162: the analysis step. *)
Definition analysis (model : GenerativeModel) (analysis_type : list string)
    : M unit :=
  try_except
    (s ← get;
     d ← lift (getattr_patient_history s);
     prompt ← lift (build_prompt d analysis_type);
     response ← invoke (c_generate_content prompt)
                       (generate_content model prompt);
     emit (st_markdown "### Analysis Results") ;;
     body ← lift (text response);
     emit (st_write body))
    (fun e => emit (st_error ("Error generating analysis: " +:+ str e))).

(** Lines 126-165: the right column. *)
Definition col2 (i : inputs) (uploaded_file : option (list byte))
    (model : GenerativeModel) : M unit :=
  reachable ← analysis_gate uploaded_file;
  if (reachable : bool) then
    emit (st_header "Analysis & Results") ;;
    analysis_type ←
      widget "multiselect" "Select Analysis Focus Areas" (w_analysis_type i);
    pressed ← widget "button" "Generate Analysis" (w_generate_analysis i);
    if (pressed : bool) && bool_of_model model then
      emit (st_spinner "Analyzing X-ray...") ;;
      analysis model analysis_type ;;
      emit (st_markdown disclaimer_title) ;;
      emit (st_warning disclaimer_text)
    else mret tt
  else mret tt.

(** Lines 168-169. *)
Definition footer : M unit :=
  emit (st_markdown "---") ;;
  emit (st_markdown footer_text).

(** The whole file, top to bottom. *)
Definition script (i : inputs) : M unit :=
  page_top ;;
  init_session_state ;;
  api_key ← resolve_api_key i;
  model ← configure_gemini api_key;
  submit_button ← sidebar i;
  emit st_columns ;;
  r ← col1 i;
  let uploaded_file := fst r in
  let base64_image := snd r in
  col2 i uploaded_file model ;;
  footer.

(** One render pass from a given store: how it ended, the store it leaves,
    and what it rendered and called, in order. *)
Definition run_pass (i : inputs) (s : session_state)
    : outcome unit * session_state * list event :=
  script i s.

Definition ending (r : outcome unit * session_state * list event)
    : outcome unit := fst (fst r).
Definition store (r : outcome unit * session_state * list event)
    : session_state := snd (fst r).
Definition trace (r : outcome unit * session_state * list event)
    : list event := snd r.

(** A session: the store after a sequence of passes, oldest first. *)
Fixpoint run_session (passes : list inputs) (s : session_state)
    : session_state :=
  match passes with
  | [] => s
  | i :: rest => run_session rest (store (run_pass i s))
  end.

End Script.

(** ** Vocabulary for stating properties of a pass *)

(** What lines 10-38 render. *)
Definition top_events : list event :=
  [ st_set_page_config page_title page_icon "wide";
    st_markdown css;
    st_title main_title;
    st_markdown "---" ].

(** What the sidebar renders (lines 62-78). *)
Definition form_events : list event :=
  [ st_header "Patient Information";
    st_form "patient_history";
    st_widget "text_input" "Patient Name";
    st_widget "number_input" "Age";
    st_widget "selectbox" "Gender";
    st_widget "multiselect" "Medical History";
    st_widget "text_area" "Current Dental Complaints";
    st_widget "text_area" "Previous Dental Treatments";
    st_widget "selectbox" "Smoking Status";
    st_widget "date_input" "Last Dental Visit";
    st_widget "form_submit_button" "Save Patient Information" ].

(** What lines 168-169 render. *)
Definition footer_events : list event :=
  [ st_markdown "---"; st_markdown footer_text ].

(** What lines 164-165 render. *)
Definition disclaimer_events : list event :=
  [ st_markdown disclaimer_title; st_warning disclaimer_text ].

(** The dictionary literal of line 67, filled from the widgets. *)
Definition form_record (i : inputs) : dict :=
  {| name := Some (w_name i);
     age := Some (w_age i);
     gender := Some (w_gender i);
     medical_history := Some (w_medical_history i);
     dental_complaints := Some (w_dental_complaints i);
     previous_treatments := Some (w_previous_treatments i);
     smoking := Some (w_smoking i);
     last_dental_visit := Some (w_last_dental_visit i) |}.

(** The store after lines 41-45. *)
Definition initialised (s : session_state) : session_state :=
  {| patient_history := Some (default empty_dict (patient_history s));
     api_key_provided := Some (default false (api_key_provided s)) |}.

(** The store after the sidebar form ran on an initialised store. *)
Definition submitted (i : inputs) (s : session_state) : session_state :=
  {| patient_history := Some (form_record i);
     api_key_provided := api_key_provided s |}.

(** The key the script goes on with, if any. *)
Definition usable_key (i : inputs) : option string :=
  match lookup_api_key i with
  | Some v => if String.eqb v "" then None else Some v
  | None => None
  end.

(** The patient name held by a store, if any. *)
Definition stored_name (s : session_state) : option string :=
  match patient_history s with
  | Some d => name d
  | None => None
  end.

(** "The stored patient name is a non-empty string." *)
Definition name_present (s : session_state) : Prop :=
  exists v, stored_name s = Some v /\ v <> "".

(** The pipeline stages after decoding: enhancement, encoding, analysis. *)
Definition later_stage (c : call) : bool :=
  match c with
  | c_fastNlMeansDenoising _ _ _ _ => true
  | c_clahe_apply _ _ _ => true
  | c_imencode _ _ => true
  | c_b64encode _ => true
  | c_generate_content _ => true
  | c_configure _ | c_GenerativeModel _ | c_imdecode _ => false
  end.

(** The calls to the remote model found in a trace, with their argument. *)
Fixpoint remote_calls (l : list event) : list string :=
  match l with
  | [] => []
  | called (c_generate_content p) :: l' => p :: remote_calls l'
  | _ :: l' => remote_calls l'
  end.

(** The base64 payloads computed in a trace. *)
Fixpoint payloads (l : list event) : list string :=
  match l with
  | [] => []
  | called (c_b64encode buf) :: l' => b64encode buf :: payloads l'
  | _ :: l' => payloads l'
  end.

(** The texts shown with [st.write] in a trace (the script only writes the
    model's answer). *)
Fixpoint written (l : list event) : list string :=
  match l with
  | [] => []
  | st_write body :: l' => body :: written l'
  | _ :: l' => written l'
  end.

(** An image with at least one pixel. *)
Definition nonempty (img : ImageMatrix) : Prop :=
  (0 < rows img)%nat /\ (0 < cols img)%nat.

(** The same inputs, with the "Generate Analysis" button not pressed. *)
Definition unpressed (i : inputs) : inputs :=
  {| secrets := secrets i;
     environ := environ i;
     w_name := w_name i;
     w_age := w_age i;
     w_gender := w_gender i;
     w_medical_history := w_medical_history i;
     w_dental_complaints := w_dental_complaints i;
     w_previous_treatments := w_previous_treatments i;
     w_smoking := w_smoking i;
     w_last_dental_visit := w_last_dental_visit i;
     w_submit_button := w_submit_button i;
     w_uploaded_file := w_uploaded_file i;
     w_denoise_strength := w_denoise_strength i;
     w_contrast_limit := w_contrast_limit i;
     w_analysis_type := w_analysis_type i;
     w_generate_analysis := false |}.

(** The same inputs, with another uploaded file and other slider values. *)
Definition with_image (i : inputs) (file : list byte) (strength : Z)
    (limit : Q) : inputs :=
  {| secrets := secrets i;
     environ := environ i;
     w_name := w_name i;
     w_age := w_age i;
     w_gender := w_gender i;
     w_medical_history := w_medical_history i;
     w_dental_complaints := w_dental_complaints i;
     w_previous_treatments := w_previous_treatments i;
     w_smoking := w_smoking i;
     w_last_dental_visit := w_last_dental_visit i;
     w_submit_button := w_submit_button i;
     w_uploaded_file := Some file;
     w_denoise_strength := strength;
     w_contrast_limit := limit;
     w_analysis_type := w_analysis_type i;
     w_generate_analysis := w_generate_analysis i |}.

(** What lines 84-85 render. *)
Definition upload_events : list event :=
  [ st_header "X-Ray Upload & Processing";
    st_widget "file_uploader" "Upload a dental X-ray image" ].

(** What lines 98-103 render for a decoded image. *)
Definition original_events (img : ImageMatrix) : list event :=
  [ st_image img "Original X-ray";
    st_subheader "Image Enhancement Options";
    st_widget "slider" "Denoising Strength";
    st_widget "slider" "Contrast Enhancement" ].

(** What lines 128-134 render when the gate is open. *)
Definition gate_events : list event :=
  [ st_header "Analysis & Results";
    st_widget "multiselect" "Select Analysis Focus Areas";
    st_widget "button" "Generate Analysis" ].

Section Outcomes.

Context {cv : Cv2} {ai : Gemini}.

(** How lines 54-59 end for a given key, and what they log. *)
Definition client_outcome (k : string)
    : outcome GenerativeModel * list event :=
  match configure k with
  | Raise e =>
      (Halt, [ called (c_configure k);
               st_error ("Error configuring Gemini API: " +:+ str e) ])
  | Ok _ =>
      match new_GenerativeModel "gemini-pro" with
      | Raise e =>
          (Halt, [ called (c_configure k);
                   called (c_GenerativeModel "gemini-pro");
                   st_error ("Error configuring Gemini API: " +:+ str e) ])
      | Ok model =>
          (Done model, [ called (c_configure k);
                         called (c_GenerativeModel "gemini-pro") ])
      end
  end.

(** The prompt built from the record the form has just stored. *)
Definition form_prompt (i : inputs) : string :=
  prompt_template (w_name i) (w_age i) (w_gender i) (w_medical_history i)
    (w_dental_complaints i) (w_previous_treatments i) (w_smoking i)
    (w_analysis_type i).

(** What lines 136-162 log for a given prompt: the call, then the result or
    the error message. *)
Definition analysis_events (model : GenerativeModel) (p : string)
    : list event :=
  match generate_content model p with
  | Raise e =>
      [ called (c_generate_content p);
        st_error ("Error generating analysis: " +:+ str e) ]
  | Ok response =>
      match text response with
      | Ok body =>
          [ called (c_generate_content p);
            st_markdown "### Analysis Results";
            st_write body ]
      | Raise e =>
          [ called (c_generate_content p);
            st_markdown "### Analysis Results";
            st_error ("Error generating analysis: " +:+ str e) ]
      end
  end.

(** What the right column logs (lines 126-165) once the form has stored
    its record. *)
Definition col2_events (i : inputs) (uploaded_file : option (list byte))
    (model : GenerativeModel) : list event :=
  match uploaded_file with
  | None => []
  | Some _ =>
      if String.eqb (w_name i) "" then []
      else
        gate_events ++
        if w_generate_analysis i
        then st_spinner "Analyzing X-ray..."
               :: analysis_events model (form_prompt i)
               ++ disclaimer_events
        else []
  end.

(** The stores a session can be in: after one or more passes from a fresh
    session. *)
Inductive reachable : session_state -> Prop :=
| reachable_first (i : inputs) :
    reachable (store (run_pass i empty_session))
| reachable_next (i : inputs) (s : session_state) :
    reachable s -> reachable (store (run_pass i s)).

End Outcomes.

(** The documented behaviour of the OpenCV calls on the images the script
    hands them: decoding never yields an empty image; both filters return an
    image "of the same size and type as the source"; PNG encoding succeeds
    and the buffer decodes to an image of the same size. *)
Class Cv2Spec (cv : Cv2) : Prop := {
  imdecode_nonempty buf img :
    imdecode buf = Ok (Some img) -> nonempty img;
  fastNlMeansDenoising_spec src h :
    nonempty src -> 0 < h ->
    exists dst, fastNlMeansDenoising src h 7 21 = Ok dst /\
                shape dst = shape src;
  apply_spec clip src :
    nonempty src -> (0 < clip)%Q ->
    exists dst, apply (createCLAHE clip (8, 8)) src = Ok dst /\
                shape dst = shape src;
  imencode_png_spec img :
    nonempty img ->
    exists buf img', imencode ".png" img = Ok (true, buf) /\
                     imdecode buf = Ok (Some img') /\
                     shape img' = shape img
}.

(** ** A small concrete world, to run the script on examples *)

Module demo.

(** A toy image container: the height in unary ([x01] repeated, then
    [x00]), the width likewise, then the samples. *)
Fixpoint unary (l : list byte) : nat * list byte :=
  match l with
  | [] => (O, [])
  | b :: t =>
      if Byte.eqb b x01 then
        match unary t with (n, r) => (S n, r) end
      else (O, t)
  end.

Definition decode_toy (buf : list byte) : option ImageMatrix :=
  match unary buf with
  | (r, rest) =>
      match unary rest with
      | (c, px) =>
          if (0 <? r)%nat && (0 <? c)%nat then Some (Mat r c px) else None
      end
  end.

Definition encode_toy (img : ImageMatrix) : list byte :=
  repeat x01 (rows img) ++ x00 :: repeat x01 (cols img) ++ x00 :: samples img.

(** Filters that leave the picture alone, and the toy container. *)
Definition cv : Cv2 :=
  {| imdecode buf := Ok (decode_toy buf);
     fastNlMeansDenoising src _ _ _ := Ok src;
     apply _ src := Ok src;
     imencode _ img := Ok (true, encode_toy img) |}.

(** The same library when denoising runs out of memory. *)
Definition cv_out_of_memory : Cv2 :=
  {| imdecode buf := Ok (decode_toy buf);
     fastNlMeansDenoising _ _ _ _ := Raise (Exn "Insufficient memory");
     apply _ src := Ok src;
     imencode _ img := Ok (true, encode_toy img) |}.

(** A remote model that answers, and one that is unavailable. *)
Definition ai : Gemini :=
  {| configure _ := Ok tt;
     new_GenerativeModel n := Ok {| model_name := n |};
     generate_content _ _ := Ok {| text := Ok "No abnormalities found." |} |}.

Definition ai_unavailable : Gemini :=
  {| configure _ := Ok tt;
     new_GenerativeModel n := Ok {| model_name := n |};
     generate_content _ _ := Raise (Exn "503 Service Unavailable") |}.

(** A service that refuses the key, and one whose answer is blocked (the
    response comes back, reading its text raises). *)
Definition ai_rejects_key : Gemini :=
  {| configure _ := Raise (Exn "API key not valid");
     new_GenerativeModel n := Ok {| model_name := n |};
     generate_content _ _ := Ok {| text := Ok "No abnormalities found." |} |}.

Definition ai_blocked : Gemini :=
  {| configure _ := Ok tt;
     new_GenerativeModel n := Ok {| model_name := n |};
     generate_content _ _ := Ok {| text := Raise (Exn "response blocked") |} |}.

(** A 2x2 picture and its file. *)
Definition picture : ImageMatrix := Mat 2 2 [x10; x20; x30; x40].
Definition picture_file : list byte := encode_toy picture.

(** A file that is not a picture. *)
Definition garbage_file : list byte := [x00; x00; x07].

(** The form as Streamlit first shows it, a credential in the environment,
    the picture uploaded, one focus area, the button pressed. *)
Definition visit : inputs :=
  {| secrets := ∅;
     environ := {[ GEMINI_API_KEY := "secret-key" ]};
     w_name := "John Doe";
     w_age := 30;
     w_gender := "Male";
     w_medical_history := ["None"];
     w_dental_complaints := "Tooth pain";
     w_previous_treatments := "None";
     w_smoking := "Non-smoker";
     w_last_dental_visit := Date 2024 1 15;
     w_submit_button := false;
     w_uploaded_file := Some picture_file;
     w_denoise_strength := 10;
     w_contrast_limit := 2;
     w_analysis_type := ["Cavity Detection"];
     w_generate_analysis := true |}.

(** The same visit on a machine without a credential. *)
Definition visit_without_key : inputs :=
  {| secrets := ∅;
     environ := ∅;
     w_name := "John Doe";
     w_age := 30;
     w_gender := "Male";
     w_medical_history := ["None"];
     w_dental_complaints := "Tooth pain";
     w_previous_treatments := "None";
     w_smoking := "Non-smoker";
     w_last_dental_visit := Date 2024 1 15;
     w_submit_button := false;
     w_uploaded_file := Some picture_file;
     w_denoise_strength := 10;
     w_contrast_limit := 2;
     w_analysis_type := ["Cavity Detection"];
     w_generate_analysis := true |}.

(** The patient record of the visit. *)
Definition record : dict := form_record visit.

End demo.

(** * Properties *)

(** ** Running the monad *)

Ltac unfold_monad :=
  unfold widget, invoke, lift, try_except, emit, stop, throw, get, put,
    mbind, M_bind, mret, M_ret in *.

Lemma bind_eq {A B} (m : M A) (f : A -> M B) (s : session_state) :
  (m ≫= f) s =
    match m s with
    | (Done a, s1, l1) =>
        match f a s1 with (o, s2, l2) => (o, s2, l1 ++ l2) end
    | (Halt, s1, l1) => (Halt, s1, l1)
    | (Throw e, s1, l1) => (Throw e, s1, l1)
    end.
Proof. reflexivity. Qed.

Section Phases.

Context {cv : Cv2} {ai : Gemini}.

Lemma page_top_eq (s : session_state) :
  page_top s = (Done tt, s, top_events).
Proof. reflexivity. Qed.

Lemma init_session_state_eq (s : session_state) :
  init_session_state s = (Done tt, initialised s, []).
Proof.
  destruct s as [[d|] [b|]]; reflexivity.
Qed.

Lemma resolve_api_key_eq (i : inputs) (s : session_state) :
  resolve_api_key i s =
    match usable_key i with
    | Some k => (Done k, s, [])
    | None => (Halt, s, [st_error missing_key_message])
    end.
Proof.
  unfold resolve_api_key, usable_key.
  destruct (lookup_api_key i) as [v|]; [|reflexivity].
  destruct (String.eqb v ""); reflexivity.
Qed.

Lemma configure_gemini_eq (k : string) (s : session_state) :
  configure_gemini k s = (fst (client_outcome k), s, snd (client_outcome k)).
Proof.
  unfold configure_gemini, client_outcome. unfold_monad.
  destruct (configure k) as [[]|e]; simpl; [|reflexivity].
  destruct (new_GenerativeModel "gemini-pro") as [m|e]; reflexivity.
Qed.

Lemma sidebar_eq (i : inputs) (s : session_state) :
  sidebar i (initialised s) =
    (Done (w_submit_button i), submitted i (initialised s), form_events).
Proof. reflexivity. Qed.

Lemma footer_eq (s : session_state) :
  footer s = (Done tt, s, footer_events).
Proof. reflexivity. Qed.

End Phases.

(** ** The two columns *)

Section Columns.

Context {cv : Cv2} {ai : Gemini}.

(** The left column, case by case.  It never touches the store. *)
Lemma col1_eq (i : inputs) (s : session_state) :
  col1 i s =
    match w_uploaded_file i with
    | None => (Done (None, None), s, upload_events)
    | Some content =>
        let decode := called (c_imdecode content) in
        match imdecode content with
        | Raise e =>
            (Halt, s,
             upload_events ++
             [decode; st_error ("Error reading image: " +:+ str e)])
        | Ok None =>
            (Halt, s, upload_events ++ [decode; st_error unreadable_message])
        | Ok (Some img) =>
            let h := w_denoise_strength i in
            let clip := w_contrast_limit i in
            let denoise := called (c_fastNlMeansDenoising img h 7 21) in
            let shown := upload_events ++ decode :: original_events img in
            let failed e := st_error ("Error processing image: " +:+ str e) in
            match fastNlMeansDenoising img h 7 21 with
            | Raise e => (Halt, s, shown ++ [denoise; failed e])
            | Ok dst =>
                let contrast := called (c_clahe_apply clip (8, 8) dst) in
                match apply (createCLAHE clip (8, 8)) dst with
                | Raise e => (Halt, s, shown ++ [denoise; contrast; failed e])
                | Ok img_processed =>
                    let enhanced :=
                      [ denoise; contrast;
                        st_image img_processed "Enhanced X-ray";
                        called (c_imencode ".png" img_processed) ] in
                    match imencode ".png" img_processed with
                    | Raise e => (Halt, s, shown ++ enhanced ++ [failed e])
                    | Ok r =>
                        (Done (Some content, Some (b64encode (snd r))), s,
                         shown ++ enhanced ++ [called (c_b64encode (snd r))])
                    end
                end
            end
        end
    end.
Proof.
  unfold col1, enhance, encode. unfold_monad. simpl.
  destruct (w_uploaded_file i) as [content|]; [|reflexivity].
  destruct (imdecode content) as [[img|]|e]; simpl; try reflexivity.
  destruct (fastNlMeansDenoising img _ 7 21) as [dst|e]; simpl;
    try reflexivity.
  destruct (apply _ dst) as [p|e]; simpl; try reflexivity.
  destruct (imencode ".png" p) as [r|e]; simpl; reflexivity.
Qed.

Lemma col1_store (i : inputs) (s : session_state) :
  snd (fst (col1 i s)) = s.
Proof.
  rewrite col1_eq. cbv zeta.
  destruct (w_uploaded_file i) as [content|]; [|reflexivity].
  destruct (imdecode content) as [[img|]|e]; try reflexivity.
  destruct (fastNlMeansDenoising img _ 7 21) as [dst|e]; try reflexivity.
  destruct (apply _ dst) as [p|e]; try reflexivity.
  destruct (imencode ".png" p) as [r|e]; reflexivity.
Qed.

(** The analysis step on the store the form has just written: it always
    completes and leaves the store alone. *)
Lemma analysis_eq (i : inputs) (model : GenerativeModel)
    (s : session_state) :
  analysis model (w_analysis_type i) (submitted i s) =
    (Done tt, submitted i s, analysis_events model (form_prompt i)).
Proof.
  unfold analysis, analysis_events, form_prompt. unfold_monad. simpl.
  match goal with
  | |- context [generate_content ?m ?p] =>
      destruct (generate_content m p) as [response|e]
  end; simpl; [|reflexivity].
  destruct (text response) as [body|e]; reflexivity.
Qed.

(** The right column on the store the form has just written. *)
Lemma col2_eq (i : inputs) (uploaded_file : option (list byte))
    (model : GenerativeModel) (s : session_state) :
  col2 i uploaded_file model (submitted i s) =
    (Done tt, submitted i s, col2_events i uploaded_file model).
Proof.
  unfold col2, analysis_gate, col2_events.
  destruct uploaded_file as [content|]; [|reflexivity].
  rewrite bind_eq. unfold_monad. simpl.
  destruct (String.eqb (w_name i) ""); simpl; [reflexivity|].
  destruct (w_generate_analysis i); simpl; [|reflexivity].
  fold (@mbind M M_bind). 
  pose proof (analysis_eq i model s) as Ha. unfold_monad.
  rewrite Ha. reflexivity.
Qed.

End Columns.

(** ** The anatomy of a render pass *)

Section Anatomy.

Context {cv : Cv2} {ai : Gemini}.

(** Every pass has one of four shapes: halted for want of a credential,
    halted while configuring the client, halted in the left column, or run
    to the footer. *)
Lemma run_pass_eq (i : inputs) (s : session_state) :
  run_pass i s =
    match usable_key i with
    | None =>
        (Halt, initialised s, top_events ++ [st_error missing_key_message])
    | Some k =>
        match client_outcome k with
        | (Done model, lc) =>
            let s1 := submitted i (initialised s) in
            let shown := top_events ++ lc ++ form_events ++ [st_columns] in
            match col1 i s1 with
            | (Done r, _, l1) =>
                (Done tt, s1,
                 shown ++ l1 ++ col2_events i (fst r) model ++ footer_events)
            | (Halt, _, l1) => (Halt, s1, shown ++ l1)
            | (Throw e, _, l1) => (Throw e, s1, shown ++ l1)
            end
        | (Halt, lc) => (Halt, initialised s, top_events ++ lc)
        | (Throw e, lc) => (Throw e, initialised s, top_events ++ lc)
        end
    end.
Proof.
  unfold run_pass, script.
  rewrite bind_eq, page_top_eq.
  rewrite bind_eq, init_session_state_eq.
  rewrite bind_eq, resolve_api_key_eq.
  destruct (usable_key i) as [k|]; [|reflexivity].
  rewrite bind_eq, configure_gemini_eq.
  destruct (client_outcome k) as [[model| |e] lc]; simpl fst; simpl snd;
    cbv iota; try reflexivity.
  rewrite bind_eq, sidebar_eq.
  rewrite bind_eq. unfold emit at 1. cbv iota.
  rewrite bind_eq.
  pose proof (col1_store i (submitted i (initialised s))) as Hs.
  destruct (col1 i (submitted i (initialised s))) as [[[r| |e] s'] l1];
    simpl in Hs; subst s'; cbv iota.
  - rewrite bind_eq, col2_eq, footer_eq. cbv zeta. simpl snd.
    rewrite <- !List.app_assoc. reflexivity.
  - cbv zeta. rewrite <- !List.app_assoc. reflexivity.
  - cbv zeta. rewrite <- !List.app_assoc. reflexivity.
Qed.

End Anatomy.

(** ** Reading traces *)

Lemma remote_calls_app (l1 l2 : list event) :
  remote_calls (l1 ++ l2) = remote_calls l1 ++ remote_calls l2.
Proof.
  induction l1 as [|e l1 IH]; [reflexivity|].
  destruct e as [| | | | | | | | | | | | |c]; simpl; try exact IH.
  destruct c; simpl; try exact IH. now rewrite IH.
Qed.

Lemma payloads_app (l1 l2 : list event) :
  payloads (l1 ++ l2) = payloads l1 ++ payloads l2.
Proof.
  induction l1 as [|e l1 IH]; [reflexivity|].
  destruct e as [| | | | | | | | | | | | |c]; simpl; try exact IH.
  destruct c; simpl; try exact IH. now rewrite IH.
Qed.

Section Credential.

Context {cv : Cv2} {ai : Gemini}.

Lemma client_outcome_no_throw (k : string) (e : exn) (lc : list event) :
  client_outcome k <> (Throw e, lc).
Proof.
  unfold client_outcome.
  destruct (configure k) as [[]|e1]; [|discriminate].
  destruct (new_GenerativeModel "gemini-pro"); discriminate.
Qed.

(** The calls a configuration attempt logs are never pipeline stages, and a
    failed attempt ends on an error message. *)
Lemma client_outcome_calls (k : string) (c : call) :
  called c ∈ snd (client_outcome k) -> later_stage c = false.
Proof.
  unfold client_outcome.
  destruct (configure k) as [[]|e1];
    [destruct (new_GenerativeModel "gemini-pro")|]; simpl;
    rewrite ?elem_of_cons, elem_of_nil; intros H;
    repeat destruct H as [H|H]; try discriminate H; try contradiction;
    injection H as ->; reflexivity.
Qed.

Lemma client_outcome_halt (k : string) (lc : list event) :
  client_outcome k = (Halt, lc) -> exists m, last lc = Some (st_error m).
Proof.
  unfold client_outcome.
  destruct (configure k) as [[]|e1];
    [destruct (new_GenerativeModel "gemini-pro")|];
    intros H; inversion H; subst; eexists; reflexivity.
Qed.

(** What the key lookup of line 48 amounts to. *)
Lemma usable_key_None (i : inputs) :
  usable_key i = None <-> no_api_key (lookup_api_key i) = true.
Proof.
  unfold usable_key, no_api_key.
  destruct (lookup_api_key i) as [v|]; [|tauto].
  destruct (String.eqb v ""); split; congruence.
Qed.

(** The store a pass leaves keeps whatever flag the initialisation found or
    created. *)
Lemma run_pass_flag (i : inputs) (s : session_state) :
  api_key_provided (store (run_pass i s)) =
    Some (default false (api_key_provided s)).
Proof.
  rewrite run_pass_eq. cbv zeta.
  destruct (usable_key i) as [k|]; [|reflexivity].
  destruct (client_outcome k) as [[m| |e] lc]; try reflexivity.
  destruct (col1 i _) as [[[r| |e] s'] l1]; reflexivity.
Qed.



End Credential.



(** ** Membership in explicit traces *)

Ltac elem_cases :=
  unfold top_events, form_events, upload_events, original_events,
    gate_events, disclaimer_events, footer_events in *;
  repeat match goal with
         | H : _ ∈ _ ++ _ |- _ => apply elem_of_app in H; destruct H as [H|H]
         | H : _ ∈ _ :: _ |- _ => apply elem_of_cons in H; destruct H as [H|H]
         | H : _ ∈ [] |- _ => apply elem_of_nil in H; contradiction
         | H : called _ = called _ |- _ =>
             injection H as H; try discriminate H; subst
         | H : @eq event _ _ |- _ => discriminate H
         end.

Section Flag.

Context {cv : Cv2} {ai : Gemini}.

Lemma reachable_flag (s : session_state) :
  reachable s -> api_key_provided s = Some false.
Proof.
  induction 1 as [i|i s Hs IH]; rewrite run_pass_flag.
  - reflexivity.
  - now rewrite IH.
Qed.

(** The flag is never read: a pass renders, calls and ends the same way
    whatever the flag holds, and the record it stores is the same. *)
Lemma flag_not_read (i : inputs) (s : session_state) (b : option bool) :
  let s' := {| patient_history := patient_history s;
               api_key_provided := b |} in
  ending (run_pass i s') = ending (run_pass i s) /\
  trace (run_pass i s') = trace (run_pass i s) /\
  patient_history (store (run_pass i s')) =
    patient_history (store (run_pass i s)).
Proof.
  cbv zeta. rewrite !run_pass_eq. cbv zeta.
  destruct (usable_key i) as [k|]; [|now repeat split].
  destruct (client_outcome k) as [[m| |e] lc];
    [|now repeat split|now repeat split].
  rewrite !col1_eq. cbv zeta.
  destruct (w_uploaded_file i) as [content|]; [|now repeat split].
  destruct (imdecode content) as [[img|]|e]; try (now repeat split).
  destruct (fastNlMeansDenoising img _ 7 21) as [dst|e];
    try (now repeat split).
  destruct (apply _ dst) as [p|e]; try (now repeat split).
  destruct (imencode ".png" p) as [r|e]; now repeat split.
Qed.

(** C10.  Lines 44-45 are the only place the script touches
    [api_key_provided]: the first pass of a session creates it as [False],
    every store a session can reach holds [False] for it, also after passes
    in which the credential was found and the client configured, and no
    pass reads it. *)
Theorem api_key_provided_stays_false (s : session_state) :
  reachable s ->
  api_key_provided s = Some false /\
  (forall i, api_key_provided (store (run_pass i s)) = Some false) /\
  (forall i b,
     let s' := {| patient_history := patient_history s;
                  api_key_provided := b |} in
     ending (run_pass i s') = ending (run_pass i s) /\
     trace (run_pass i s') = trace (run_pass i s)).
Proof.
  intros Hs. split; [|split].
  - now apply reachable_flag.
  - intros i. rewrite run_pass_flag, (reachable_flag s Hs). reflexivity.
  - intros i b. cbv zeta.
    destruct (flag_not_read i s b) as (H1 & H2 & _). now split.
Qed.

End Flag.

Lemma api_key_provided_stays_false_witness :
  let s := store (@run_pass demo.cv demo.ai demo.visit empty_session) in
  @reachable demo.cv demo.ai s /\
  usable_key demo.visit = Some "secret-key" /\
  api_key_provided s = Some false.
Proof.
  cbv zeta. split; [constructor|]. split; [reflexivity|].
  apply (@api_key_provided_stays_false demo.cv demo.ai
           (store (@run_pass demo.cv demo.ai demo.visit empty_session))).
  constructor.
Defined.

(** ** Case analysis of a pass *)

(** Splits a goal about [run_pass i s] into the ways a pass can go: no key;
    [configure] or the model constructor raised; no file; decoding raised;
    nothing decoded; denoising, contrast enhancement or encoding raised; all
    went through.  Every branch has its trace written out. *)
Ltac pass_cases i :=
  rewrite ?run_pass_eq; cbv zeta; unfold client_outcome;
  destruct (usable_key i) as [?k|] eqn:?Hkey;
  [ destruct (configure _) as [[]|?e] eqn:?Hconf;
    [ destruct (new_GenerativeModel "gemini-pro") as [?model|?e] eqn:?Hmodel;
      [ rewrite ?col1_eq; cbv zeta;
        destruct (w_uploaded_file i) as [?content|] eqn:?Hfile;
        [ destruct (imdecode _) as [[?img|]|?e] eqn:?Hdec;
          [ destruct (fastNlMeansDenoising _ _ 7 21) as [?dst|?e] eqn:?Hden;
            [ destruct (apply _ _) as [?p|?e] eqn:?Hcla;
              [ destruct (imencode ".png" _) as [?r|?e] eqn:?Henc | ] | ]
          | | ]
        | ]
      | ]
    | ]
  | ].

(** Splits the right column further: name empty or not, button pressed or
    not, and how the remote call went. *)
Ltac gate_cases i :=
  try unfold col2_events; cbv [fst snd];
  try match goal with
      | |- context [String.eqb (w_name i) ""] =>
          destruct (String.eqb (w_name i) "") eqn:?Hname;
          [ | destruct (w_generate_analysis i) eqn:?Hgen;
              [ unfold analysis_events;
                destruct (generate_content _ _) as [?response|?e]
                  eqn:?Hgenerate;
                [ destruct (text _) as [?body|?e] eqn:?Htext | ] | ] ]
      end.

(** Finds an element in a trace that is written out. *)
Ltac elem_find :=
  cbv [top_events form_events upload_events original_events gate_events
       disclaimer_events footer_events app];
  solve [ repeat first [ apply list_elem_of_here
                       | apply list_elem_of_further ] ].

Section Decoding.

Context {cv : Cv2} {ai : Gemini}.

(** Up to the two columns, the only calls are those that configure the
    client. *)
Lemma shown_calls (k : string) (o : outcome GenerativeModel)
    (lc : list event) (c : call) :
  client_outcome k = (o, lc) ->
  called c ∈ top_events ++ lc ++ form_events ++ [st_columns] ->
  later_stage c = false.
Proof.
  intros Hclient Hc.
  apply elem_of_app in Hc as [Hc|Hc]; [elem_cases|].
  apply elem_of_app in Hc as [Hc|Hc]; [|elem_cases].
  change lc with (snd (o, lc)) in Hc. rewrite <- Hclient in Hc.
  eapply client_outcome_calls, Hc.
Qed.

(** C3.  Lines 87-95 and 122-124: when the uploaded bytes do not decode to
    an image ([cv2.imdecode] returns [None], or raises), the pass halts, the
    last thing it renders is an error message, and it calls neither
    denoising, contrast enhancement, encoding nor the remote model.  When
    the decoder was reached, that message is the decode error. *)
Theorem unreadable_upload_halts (i : inputs) (s : session_state)
    (content : list byte) :
  w_uploaded_file i = Some content ->
  (forall img, imdecode content <> Ok (Some img)) ->
  let r := run_pass i s in
  ending r = Halt /\
  (exists m, last (trace r) = Some (st_error m)) /\
  (forall c, called c ∈ trace r -> later_stage c = false) /\
  (called (c_imdecode content) ∈ trace r ->
     (imdecode content = Ok None /\
      last (trace r) = Some (st_error unreadable_message)) \/
     (exists e, imdecode content = Raise e /\
        last (trace r) =
          Some (st_error ("Error reading image: " +:+ str e)))).
Proof.
  intros Hup Hbad. cbv zeta. unfold ending, trace.
  rewrite run_pass_eq. cbv zeta.
  destruct (usable_key i) as [k|] eqn:Hkey;
    [destruct (client_outcome k) as [[model| |e] lc] eqn:Hclient;
     [rewrite col1_eq, Hup; cbv zeta;
      destruct (imdecode content) as [[img|]|e] eqn:Hdec;
      [exfalso; apply (Hbad img); reflexivity| |]
     |
     |exfalso; eapply client_outcome_no_throw; eassumption]
    |]; cbv [fst snd].
  - (* decoding returned None *)
    split; [reflexivity|]. split; [|split].
    + eexists. rewrite !last_app. reflexivity.
    + intros c Hc. apply elem_of_app in Hc as [Hc|Hc];
        [eapply shown_calls; eassumption|elem_cases; reflexivity].
    + intros _. left. split; [reflexivity|]. rewrite !last_app. reflexivity.
  - (* decoding raised *)
    split; [reflexivity|]. split; [|split].
    + eexists. rewrite !last_app. reflexivity.
    + intros c Hc. apply elem_of_app in Hc as [Hc|Hc];
        [eapply shown_calls; eassumption|elem_cases; reflexivity].
    + intros _. right. exists e. split; [reflexivity|].
      rewrite !last_app. reflexivity.
  - (* the client could not be configured *)
    split; [reflexivity|]. split; [|split].
    + destruct (client_outcome_halt _ _ Hclient) as [m Hm].
      exists m. rewrite last_app, Hm. reflexivity.
    + intros c Hc. apply elem_of_app in Hc as [Hc|Hc]; [elem_cases|].
      change lc with (snd (@Halt GenerativeModel, lc)) in Hc.
      rewrite <- Hclient in Hc. eapply client_outcome_calls, Hc.
    + intros Hc. exfalso.
      apply elem_of_app in Hc as [Hc|Hc]; [elem_cases|].
      change lc with (snd (@Halt GenerativeModel, lc)) in Hc.
      rewrite <- Hclient in Hc. unfold client_outcome in Hc.
      destruct (configure k) as [[]|e1];
        [destruct (new_GenerativeModel "gemini-pro")|];
        simpl in Hc; elem_cases.
  - (* no key *)
    split; [reflexivity|]. split; [|split].
    + eexists. reflexivity.
    + intros c Hc. elem_cases.
    + intros Hc. elem_cases.
Qed.

End Decoding.

Lemma unreadable_upload_halts_witness :
  let i := with_image demo.visit demo.garbage_file 10 2 in
  let r := @run_pass demo.cv demo.ai i empty_session in
  ending r = Halt /\
  last (trace r) = Some (st_error unreadable_message) /\
  remote_calls (trace r) = [].
Proof.
  cbv zeta.
  destruct (@unreadable_upload_halts demo.cv demo.ai
              (with_image demo.visit demo.garbage_file 10 2) empty_session
              demo.garbage_file) as (H1 & _ & _ & _).
  - reflexivity.
  - intros img. vm_compute. discriminate.
  - split; [exact H1|]. split; reflexivity.
Defined.

(** ** The gate of the right column *)

Lemma name_present_submitted (i : inputs) (s : session_state) :
  name_present (submitted i s) <-> String.eqb (w_name i) "" = false.
Proof.
  unfold name_present, stored_name. simpl. rewrite String.eqb_neq. split.
  - intros (v & Hv & Hne). now injection Hv as ->.
  - intros Hne. now exists (w_name i).
Qed.

Section Gate.

Context {cv : Cv2} {ai : Gemini}.

(** C1 (as amended).  Line 127 is the only way into the right column, and
    the three [st.stop()] guards before it (no credential, client not
    configured, image not read or not processed) are the only way to miss
    it: the "Analysis & Results" header and the "Generate Analysis" button
    are rendered exactly in the passes that are not halted, have a file
    uploaded and have stored a non-empty patient name.  In every pass, a
    call to the remote model implies an uploaded file and a non-empty stored
    name: with an empty name no analysis can be triggered. *)
Theorem analysis_section_gate (i : inputs) (s : session_state) :
  let r := run_pass i s in
  let section_open :=
    ending r = Done tt /\ w_uploaded_file i <> None /\ name_present (store r)
  in
  (st_header "Analysis & Results" ∈ trace r <-> section_open) /\
  (st_widget "button" "Generate Analysis" ∈ trace r <-> section_open) /\
  (forall p, called (c_generate_content p) ∈ trace r ->
             w_uploaded_file i <> None /\ name_present (store r)).
Proof.
  cbv zeta. unfold ending, store, trace.
  pose proof (name_present_submitted i (initialised s)) as Hn.
  pass_cases i; gate_cases i; (split; [|split]).
  all: try (split;
            [ intros H; elem_cases;
              (split; [reflexivity|split; [congruence|now apply Hn]])
            | intros (H1 & H2 & H3);
              first [ discriminate H1 | congruence
                    | apply Hn in H3; congruence | elem_find ] ]).
  all: intros q H; elem_cases; (split; [congruence|now apply Hn]).
Qed.

End Gate.

(** C1 (as stated) fails: the picture is uploaded and shown, the credential
    is there and the stored name is "John Doe", but denoising raises, the
    pass halts at line 120 and the section is not rendered. *)
Lemma analysis_section_not_exact :
  let r := @run_pass demo.cv_out_of_memory demo.ai demo.visit empty_session in
  ~ (st_header "Analysis & Results" ∈ trace r <->
     w_uploaded_file demo.visit <> None /\ name_present (store r)).
Proof.
  cbv zeta. intros [_ H].
  assert (Hin : st_header "Analysis & Results"
                  ∈ trace (@run_pass demo.cv_out_of_memory demo.ai
                             demo.visit empty_session)).
  { apply H. split; [discriminate|].
    exists "John Doe". split; [reflexivity|discriminate]. }
  apply list_elem_of_In in Hin. vm_compute in Hin.
  repeat destruct Hin as [Hin|Hin]; try discriminate Hin. exact Hin.
Qed.

(** ** What a pass renders *)

Section Presentation.

Context {cv : Cv2} {ai : Gemini}.

(** C9 (as amended).  The page top is rendered on every pass.  A pass that
    is not halted renders the form, the upload control and the footer, and,
    when a file is uploaded, the original image, both sliders and the
    enhanced image.  The disclaimer (lines 164-165) sits inside the
    "Generate Analysis" branch: it is rendered exactly in the passes that
    are not halted, have a file and a non-empty name, and have the button
    pressed. *)
Theorem presentation_layer (i : inputs) (s : session_state) :
  let r := run_pass i s in
  let analysed :=
    ending r = Done tt /\ w_uploaded_file i <> None /\
    w_name i <> "" /\ w_generate_analysis i = true
  in
  (forall e, e ∈ top_events -> e ∈ trace r) /\
  (ending r = Done tt ->
     (forall e, e ∈ form_events ++ upload_events ++ footer_events ->
                e ∈ trace r) /\
     (w_uploaded_file i <> None ->
        exists img img',
          forall e,
            e ∈ original_events img ++ [st_image img' "Enhanced X-ray"] ->
            e ∈ trace r)) /\
  (st_markdown disclaimer_title ∈ trace r <-> analysed) /\
  (st_warning disclaimer_text ∈ trace r <-> analysed).
Proof.
  cbv zeta. unfold ending, trace.
  pass_cases i; gate_cases i; rewrite <- ?String.eqb_neq;
    (split; [|split; [|split]]).
  all: try (intros ev Hev; elem_cases; subst; elem_find).
  all: try (intros H;
            first [ discriminate H
                  | clear H; split;
                    [ intros ev Hev; elem_cases; subst; elem_find
                    | intros Hf; try congruence;
                      eexists _, _; intros ev Hev; elem_cases; subst;
                      elem_find ] ]).
  all: split;
    [ intros H; elem_cases; repeat split; congruence
    | intros (H1 & H2 & H3 & H4);
      first [discriminate H1|congruence|elem_find] ].
Qed.

End Presentation.

(** C9 (as stated) fails: with the picture uploaded, the form filled in and
    the button not pressed, the pass runs to the footer and renders both
    images and the analysis section, but no disclaimer. *)
Lemma disclaimer_not_on_every_pass :
  let r := @run_pass demo.cv demo.ai (unpressed demo.visit) empty_session in
  ending r = Done tt /\
  st_header "Analysis & Results" ∈ trace r /\
  ~ st_warning disclaimer_text ∈ trace r.
Proof.
  cbv zeta. split; [reflexivity|]. split.
  - apply list_elem_of_In. vm_compute. tauto.
  - intros Hin. apply list_elem_of_In in Hin. vm_compute in Hin.
    repeat destruct Hin as [Hin|Hin]; try discriminate Hin. exact Hin.
Qed.

(** ** A failing remote call *)

Section RemoteFailure.

Context {cv : Cv2} {ai : Gemini}.

Lemma col2_events_unpressed (i : inputs) (u : option (list byte))
    (m : GenerativeModel) :
  col2_events (unpressed i) u m =
    match u with
    | None => []
    | Some _ => if String.eqb (w_name i) "" then [] else gate_events
    end.
Proof.
  unfold col2_events. destruct u as [content|]; [|reflexivity]. simpl.
  destruct (String.eqb (w_name i) ""); reflexivity.
Qed.

(** The pass with the same inputs and the button left alone. *)
Lemma run_pass_unpressed_eq (i : inputs) (s : session_state) :
  run_pass (unpressed i) s =
    match usable_key i with
    | None =>
        (Halt, initialised s, top_events ++ [st_error missing_key_message])
    | Some k =>
        match client_outcome k with
        | (Done model, lc) =>
            let s1 := submitted i (initialised s) in
            let shown := top_events ++ lc ++ form_events ++ [st_columns] in
            match col1 i s1 with
            | (Done r, _, l1) =>
                (Done tt, s1,
                 shown ++ l1 ++
                 match fst r with
                 | None => []
                 | Some _ =>
                     if String.eqb (w_name i) "" then [] else gate_events
                 end ++ footer_events)
            | (Halt, _, l1) => (Halt, s1, shown ++ l1)
            | (Throw e, _, l1) => (Throw e, s1, shown ++ l1)
            end
        | (Halt, lc) => (Halt, initialised s, top_events ++ lc)
        | (Throw e, lc) => (Throw e, initialised s, top_events ++ lc)
        end
    end.
Proof.
  rewrite run_pass_eq.
  change (usable_key (unpressed i)) with (usable_key i).
  destruct (usable_key i) as [k|]; [|reflexivity].
  destruct (client_outcome k) as [[model| |e] lc]; reflexivity.
Qed.

(** C7.  Lines 157-162: when the pass calls the remote model and the call
    raises, the exception is caught on the spot.  The pass renders
    everything the same pass renders with the button left alone, then the
    spinner, the error message and the disclaimer, and runs on to the
    footer; it leaves the same store as without the button; the model is
    called exactly once. *)
Theorem remote_failure_is_local (i : inputs) (s : session_state) (e : exn) :
  let r := run_pass i s in
  remote_calls (trace r) <> [] ->
  (forall m, new_GenerativeModel "gemini-pro" = Ok m ->
             generate_content m (form_prompt i) = Raise e) ->
  exists pre,
    trace (run_pass (unpressed i) s) = pre ++ footer_events /\
    trace r =
      pre ++
      [ st_spinner "Analyzing X-ray...";
        called (c_generate_content (form_prompt i));
        st_error ("Error generating analysis: " +:+ str e) ] ++
      disclaimer_events ++ footer_events /\
    ending r = Done tt /\
    store r = store (run_pass (unpressed i) s) /\
    remote_calls (trace r) = [form_prompt i].
Proof.
  cbv zeta. intros Hcalled Hfails.
  rewrite run_pass_unpressed_eq. unfold ending, store, trace in *.
  revert Hcalled.
  pass_cases i; gate_cases i; intros Hcalled;
    rewrite ?remote_calls_app in Hcalled; cbn in Hcalled;
    try (exfalso; apply Hcalled; reflexivity);
    rewrite (Hfails _ eq_refl) in Hgenerate; try discriminate Hgenerate.
  injection Hgenerate as <-.
  eexists. split; [|split; [|split; [|split]]];
    [ | | reflexivity | reflexivity | ].
  - rewrite !List.app_assoc. reflexivity.
  - rewrite <- !List.app_assoc. reflexivity.
  - rewrite !remote_calls_app. reflexivity.
Qed.

End RemoteFailure.

Lemma remote_failure_is_local_witness :
  let r := @run_pass demo.cv demo.ai_unavailable demo.visit empty_session in
  let quiet :=
    @run_pass demo.cv demo.ai_unavailable (unpressed demo.visit)
      empty_session in
  remote_calls (trace r) <> [] /\
  ending r = Done tt /\
  store r = store quiet /\
  remote_calls (trace r) = [form_prompt demo.visit].
Proof.
  cbv zeta.
  destruct (@remote_failure_is_local demo.cv demo.ai_unavailable demo.visit
              empty_session (Exn "503 Service Unavailable"))
    as (pre & _ & _ & H3 & H4 & H5).
  - vm_compute. discriminate.
  - intros m _. reflexivity.
  - split; [vm_compute; discriminate|]. split; [exact H3|].
    split; [exact H4|exact H5].
Defined.

(** ** Written text *)

Lemma written_app (l1 l2 : list event) :
  written (l1 ++ l2) = written l1 ++ written l2.
Proof.
  induction l1 as [|e l1 IH]; [reflexivity|].
  destruct e; simpl; try exact IH. now rewrite IH.
Qed.

(** ** The prompt *)

Lemma join_comma_joined (items : list string) :
  join items = comma_joined items.
Proof.
  unfold join. induction items as [|x [|y rest] IH]; [reflexivity..|].
  change (String.concat ", " (x :: y :: rest))
    with (x +:+ ", " +:+ String.concat ", " (y :: rest)).
  rewrite IH. reflexivity.
Qed.

(** C5.  Lines 137-155: for every patient record with its fields present
    and every list of focus areas, the empty one included, building the
    prompt succeeds and yields exactly the lay-out of the fixed lines: name,
    age, gender, medical history written out with ", " between its items,
    complaints, previous treatments, smoking status, the focus areas written
    out with ", " between them (nothing after "Focus Areas: " for the empty
    list) and the three instruction bullets.  Evaluating it in the script
    leaves the store alone and renders nothing. *)
Theorem prompt_is_formatted_record
    (p_name : string) (p_age : Z) (p_gender : string)
    (p_medical_history : list string)
    (p_complaints p_treatments p_smoking : string)
    (visit : option date) (focus_areas : list string) (s : session_state) :
  let d := {| name := Some p_name;
              age := Some p_age;
              gender := Some p_gender;
              medical_history := Some p_medical_history;
              dental_complaints := Some p_complaints;
              previous_treatments := Some p_treatments;
              smoking := Some p_smoking;
              last_dental_visit := visit |} in
  let p := layout (prompt_lines p_name p_age p_gender p_medical_history
                     p_complaints p_treatments p_smoking focus_areas) in
  build_prompt d focus_areas = Ok p /\
  lift (build_prompt d focus_areas) s = (Done p, s, []) /\
  Some ("- Medical History: " +:+ comma_joined p_medical_history)
    ∈ prompt_lines p_name p_age p_gender p_medical_history
        p_complaints p_treatments p_smoking focus_areas /\
  Some ("Focus Areas: " +:+ comma_joined focus_areas)
    ∈ prompt_lines p_name p_age p_gender p_medical_history
        p_complaints p_treatments p_smoking focus_areas /\
  (focus_areas = [] ->
   Some "Focus Areas: "
     ∈ prompt_lines p_name p_age p_gender p_medical_history
         p_complaints p_treatments p_smoking focus_areas) /\
  (forall x y rest,
     focus_areas = x :: y :: rest ->
     join focus_areas = x +:+ ", " +:+ join (y :: rest)).
Proof.
  cbv zeta.
  assert (H : build_prompt
                {| name := Some p_name;
                   age := Some p_age;
                   gender := Some p_gender;
                   medical_history := Some p_medical_history;
                   dental_complaints := Some p_complaints;
                   previous_treatments := Some p_treatments;
                   smoking := Some p_smoking;
                   last_dental_visit := visit |} focus_areas =
              Ok (layout (prompt_lines p_name p_age p_gender
                            p_medical_history p_complaints p_treatments
                            p_smoking focus_areas))).
  { unfold build_prompt, getitem, prompt_template.
    cbn [name age gender medical_history dental_complaints
         previous_treatments smoking].
    rewrite !join_comma_joined. reflexivity. }
  split; [exact H|]. split; [rewrite H; reflexivity|].
  split; [|split; [|split]].
  - unfold prompt_lines. do 7 apply list_elem_of_further.
    apply list_elem_of_here.
  - unfold prompt_lines. do 12 apply list_elem_of_further.
    apply list_elem_of_here.
  - intros ->. unfold prompt_lines. do 12 apply list_elem_of_further.
    apply list_elem_of_here.
  - intros x y rest ->. reflexivity.
Qed.

Lemma prompt_is_formatted_record_witness :
  build_prompt
    {| name := Some "John Doe";
       age := Some 30;
       gender := Some "Male";
       medical_history := Some ["Diabetes"; "Hypertension"];
       dental_complaints := Some "Tooth pain";
       previous_treatments := Some "None";
       smoking := Some "Non-smoker";
       last_dental_visit := None |}
    ["Cavity Detection"; "Bone Density"; "Wisdom Teeth"] =
  Ok "
                    Please analyze this dental X-ray image with the following context:

                    Patient Information:
                    - Name: John Doe
                    - Age: 30
                    - Gender: Male
                    - Medical History: Diabetes, Hypertension
                    - Current Complaints: Tooth pain
                    - Previous Treatments: None
                    - Smoking Status: Non-smoker

                    Focus Areas: Cavity Detection, Bone Density, Wisdom Teeth

                    Provide:
                    1. Identified abnormalities
                    2. Potential diagnosis
                    3. Recommendations
                    " /\
  build_prompt demo.record [] =
    Ok (layout (prompt_lines "John Doe" 30 "Male" ["None"] "Tooth pain"
                  "None" "Non-smoker" [])) /\
  join ["Cavity Detection"; "Bone Density"; "Wisdom Teeth"] =
    "Cavity Detection, Bone Density, Wisdom Teeth".
Proof.
  destruct (prompt_is_formatted_record "John Doe" 30 "Male"
              ["Diabetes"; "Hypertension"] "Tooth pain" "None" "Non-smoker"
              None ["Cavity Detection"; "Bone Density"; "Wisdom Teeth"]
              empty_session) as (H1 & _ & _ & _ & _ & H6).
  destruct (prompt_is_formatted_record "John Doe" 30 "Male" ["None"]
              "Tooth pain" "None" "Non-smoker" (Some (Date 2024 1 15)) []
              empty_session) as (H1' & _).
  split; [exact H1|]. split; [exact H1'|].
  rewrite (H6 _ _ _ eq_refl). reflexivity.
Defined.

(** ** Base64 *)

Lemma list_ind3 {A} (P : list A -> Prop) :
  P [] ->
  (forall a, P [a]) ->
  (forall a b, P [a; b]) ->
  (forall a b c l, P l -> P (a :: b :: c :: l)) ->
  forall l, P l.
Proof.
  intros H0 H1 H2 H3 l.
  assert (H : P l /\ (forall a, P (a :: l)) /\ (forall a b, P (a :: b :: l))).
  { induction l as [|x l (IH0 & IH1 & IH2)].
    - repeat split; auto.
    - repeat split; auto. }
  exact (proj1 H).
Qed.

Lemma Z_of_byte_range (b : byte) : 0 <= base64.Z_of_byte b < 256.
Proof.
  unfold base64.Z_of_byte. pose proof (Byte.to_N_bounded b). lia.
Qed.

Lemma byte_of_Z_of_byte (b : byte) :
  base64.byte_of_Z (base64.Z_of_byte b) = b.
Proof.
  unfold base64.byte_of_Z, base64.Z_of_byte.
  now rewrite N2Z.id, Byte.of_to_N.
Qed.

(** Every 6-bit group is mapped to a character of the alphabet that is not
    the padding character and maps back to the group. *)
Lemma index_of_char_of (n : Z) :
  0 <= n < 64 ->
  base64.index_of (base64.char_of n) = Some n /\
  Ascii.eqb (base64.char_of n) base64.pad = false.
Proof.
  intros Hn.
  assert (Hall : forallb
            (fun k : nat =>
               match base64.index_of (base64.char_of (Z.of_nat k)) with
               | Some m => Z.eqb m (Z.of_nat k)
               | None => false
               end &&
               negb (Ascii.eqb (base64.char_of (Z.of_nat k)) base64.pad))
            (seq 0 64) = true) by (vm_compute; reflexivity).
  rewrite forallb_forall in Hall.
  specialize (Hall (Z.to_nat n)).
  rewrite Z2Nat.id in Hall by lia.
  assert (Hin : In (Z.to_nat n) (seq 0 64)) by (apply in_seq; lia).
  apply Hall in Hin. apply andb_true_iff in Hin as [H1 H2].
  destruct (base64.index_of (base64.char_of n)) as [m|]; [|discriminate].
  apply Z.eqb_eq in H1. subst m. split; [reflexivity|].
  now apply negb_true_iff in H2.
Qed.

Lemma sextet_range (k n : Z) : 0 <= base64.sextet k n < 64.
Proof. unfold base64.sextet. apply Z.mod_pos_bound. lia. Qed.

(** Four 6-bit groups carry the 24 bits of three bytes. *)
Lemma unpack_sextets (n : Z) :
  0 <= n < 16777216 ->
  base64.unpack (base64.sextet 0 n) (base64.sextet 1 n)
    (base64.sextet 2 n) (base64.sextet 3 n) = n.
Proof.
  intros Hn. unfold base64.unpack, base64.sextet.
  change (64 ^ (3 - 0)) with 262144. change (64 ^ (3 - 1)) with 4096.
  change (64 ^ (3 - 2)) with 64. change (64 ^ (3 - 3)) with 1.
  rewrite Z.div_1_r.
  rewrite (Z.mod_small (n / 262144)) by (split; [apply Z.div_pos; lia|
    apply Z.div_lt_upper_bound; lia]).
  Z.to_euclidean_division_equations. lia.
Qed.

Lemma octets_pack (a b c : Z) :
  0 <= a < 256 -> 0 <= b < 256 -> 0 <= c < 256 ->
  0 <= base64.pack a b c < 16777216 /\
  base64.octet 0 (base64.pack a b c) = a /\
  base64.octet 1 (base64.pack a b c) = b /\
  base64.octet 2 (base64.pack a b c) = c.
Proof.
  intros Ha Hb Hc. unfold base64.octet, base64.pack.
  change (256 ^ (2 - 0)) with 65536. change (256 ^ (2 - 1)) with 256.
  change (256 ^ (2 - 2)) with 1.
  repeat split; try lia; Z.to_euclidean_division_equations; lia.
Qed.

(** With the last byte (or the last two) zero, the last group (or the last
    two) is zero. *)
Lemma sextet_padding (a b : Z) :
  0 <= a < 256 -> 0 <= b < 256 ->
  base64.sextet 3 (base64.pack a b 0) = 0 /\
  base64.sextet 2 (base64.pack a 0 0) = 0.
Proof.
  intros Ha Hb. unfold base64.sextet, base64.pack.
  change (64 ^ (3 - 3)) with 1. change (64 ^ (3 - 2)) with 64.
  split; Z.to_euclidean_division_equations; lia.
Qed.

Arguments base64.index_of : simpl never.
Arguments base64.char_of : simpl never.
Arguments base64.sextet : simpl never.
Arguments base64.octet : simpl never.
Arguments base64.unpack : simpl never.
Arguments base64.byte_of_Z : simpl never.

(** [b64decode (b64encode buf) = buf]. *)
Lemma decode_encode (l : list byte) :
  base64.decode (base64.encode l) = Some l.
Proof.
  induction l as [|a|a b|a b c l IH] using list_ind3.
  - reflexivity.
  - pose proof (Z_of_byte_range a) as Ha.
    destruct (octets_pack (base64.Z_of_byte a) 0 0) as (Hn & Ho & _);
      [lia..|].
    destruct (sextet_padding (base64.Z_of_byte a) 0) as [H3 H2]; [lia..|].
    pose proof (unpack_sextets _ Hn) as Hu. rewrite H2 in Hu.
    assert (H3' : base64.sextet 3 (base64.pack (base64.Z_of_byte a) 0 0) = 0)
      by exact H3.
    rewrite H3' in Hu.
    set (n := base64.pack (base64.Z_of_byte a) 0 0) in *.
    cbn [base64.encode]. cbv zeta. fold n. cbn [base64.decode].
    destruct (index_of_char_of (base64.sextet 0 n)) as [-> _];
      [apply sextet_range|].
    destruct (index_of_char_of (base64.sextet 1 n)) as [-> _];
      [apply sextet_range|].
    cbn. rewrite Hu, Ho, byte_of_Z_of_byte. reflexivity.
  - pose proof (Z_of_byte_range a) as Ha.
    pose proof (Z_of_byte_range b) as Hb.
    destruct (octets_pack (base64.Z_of_byte a) (base64.Z_of_byte b) 0)
      as (Hn & Ho0 & Ho1 & _); [lia..|].
    destruct (sextet_padding (base64.Z_of_byte a) (base64.Z_of_byte b))
      as [H3 _]; [lia..|].
    pose proof (unpack_sextets _ Hn) as Hu. rewrite H3 in Hu.
    set (n := base64.pack (base64.Z_of_byte a) (base64.Z_of_byte b) 0) in *.
    cbn [base64.encode]. cbv zeta. fold n. cbn [base64.decode].
    destruct (index_of_char_of (base64.sextet 0 n)) as [-> _];
      [apply sextet_range|].
    destruct (index_of_char_of (base64.sextet 1 n)) as [-> _];
      [apply sextet_range|].
    destruct (index_of_char_of (base64.sextet 2 n)) as [E2 P2];
      [apply sextet_range|].
    cbn. rewrite P2, E2. cbn.
    rewrite Hu, Ho0, Ho1, !byte_of_Z_of_byte. reflexivity.
  - pose proof (Z_of_byte_range a) as Ha.
    pose proof (Z_of_byte_range b) as Hb.
    pose proof (Z_of_byte_range c) as Hc.
    destruct (octets_pack (base64.Z_of_byte a) (base64.Z_of_byte b)
                (base64.Z_of_byte c)) as (Hn & Ho0 & Ho1 & Ho2); [lia..|].
    pose proof (unpack_sextets _ Hn) as Hu.
    set (n := base64.pack (base64.Z_of_byte a) (base64.Z_of_byte b)
                (base64.Z_of_byte c)) in *.
    cbn [base64.encode]. cbv zeta. fold n. cbn [base64.decode].
    destruct (index_of_char_of (base64.sextet 0 n)) as [-> _];
      [apply sextet_range|].
    destruct (index_of_char_of (base64.sextet 1 n)) as [-> _];
      [apply sextet_range|].
    destruct (index_of_char_of (base64.sextet 2 n)) as [-> _];
      [apply sextet_range|].
    destruct (index_of_char_of (base64.sextet 3 n)) as [-> ->];
      [apply sextet_range|].
    rewrite IH. cbn.
    rewrite Hu, Ho0, Ho1, Ho2, !byte_of_Z_of_byte. reflexivity.
Qed.

(** ** The payload and the remote call *)

Section TextOnly.

Context {cv : Cv2} {ai : Gemini}.

(** The left column neither calls the remote model nor writes text, and
    hands on the uploaded file. *)
Lemma col1_quiet (i : inputs) (s : session_state) :
  remote_calls (snd (col1 i s)) = [] /\
  written (snd (col1 i s)) = [] /\
  (forall r, fst (fst (col1 i s)) = Done r -> fst r = w_uploaded_file i).
Proof.
  rewrite col1_eq. cbv zeta.
  assert (Hhalt : forall (x : option (list byte)) (t : session_state)
                         (l : list event),
             remote_calls l = [] -> written l = [] ->
             remote_calls (snd (@Halt (option (list byte) * option string), t, l)) = [] /\
             written (snd (@Halt (option (list byte) * option string), t, l)) = [] /\
             (forall r, fst (fst (@Halt (option (list byte) * option string), t, l)) = Done r ->
                        fst r = x)).
  { intros x t l H1 H2. split; [exact H1|]. split; [exact H2|].
    intros r0 [=]. }
  destruct (w_uploaded_file i) as [content|].
  2: { split; [reflexivity|]. split; [reflexivity|].
       intros r0 [= <-]. reflexivity. }
  destruct (imdecode content) as [[img|]|e];
    try (apply Hhalt; reflexivity).
  destruct (fastNlMeansDenoising img _ 7 21) as [dst|e];
    try (apply Hhalt; reflexivity).
  destruct (apply _ dst) as [p|e]; try (apply Hhalt; reflexivity).
  destruct (imencode ".png" p) as [r|e]; try (apply Hhalt; reflexivity).
  split; [reflexivity|]. split; [reflexivity|].
  intros r0 [= <-]. reflexivity.
Qed.

Lemma shown_quiet (k : string) (o : outcome GenerativeModel)
    (lc : list event) :
  client_outcome k = (o, lc) ->
  remote_calls (top_events ++ lc ++ form_events ++ [st_columns]) = [] /\
  written (top_events ++ lc ++ form_events ++ [st_columns]) = [].
Proof.
  unfold client_outcome.
  destruct (configure k) as [[]|e1];
    [destruct (new_GenerativeModel "gemini-pro")|];
    intros [= <- <-]; split; reflexivity.
Qed.

(** The right column does not look at the file, only at whether there is
    one. *)
Lemma col2_events_with_image (i : inputs) (file : list byte) (h : Z)
    (clip : Q) (x y : list byte) (m : GenerativeModel) :
  col2_events (with_image i file h clip) (Some x) m =
    col2_events i (Some y) m.
Proof. reflexivity. Qed.

(** C4.  Lines 115-116 and 157.  Every call to the remote model in a pass
    has the prompt built from the stored record and the focus areas as its
    argument, and nothing else.  The payload is computed all the same: when
    the left column completes with a payload, [base64_image] is the base64
    text of the PNG buffer [imencode] returned for the enhanced image on
    display, and decodes back to that buffer; a pass that runs to the end
    with a file computes exactly that one payload, from the decoded,
    denoised and contrast-enhanced upload.  The payload is used nowhere: two
    passes that differ only in the uploaded file and the slider values, and
    both run to the end, call the model with the same argument and write
    the same answer. *)
Theorem remote_call_is_text_only (i : inputs) (s : session_state) :
  let r := run_pass i s in
  (forall p, p ∈ remote_calls (trace r) -> p = form_prompt i) /\
  (forall s0 uploaded_file base64_image s1 l,
     col1 i s0 = (Done (uploaded_file, Some base64_image), s1, l) ->
     exists img_processed buf,
       st_image img_processed "Enhanced X-ray" ∈ l /\
       imencode ".png" img_processed = Ok buf /\
       called (c_b64encode (snd buf)) ∈ l /\
       base64_image = b64encode (snd buf) /\
       base64.decode base64_image = Some (snd buf)) /\
  (forall content,
     ending r = Done tt -> w_uploaded_file i = Some content ->
     exists img dst img_processed buf,
       imdecode content = Ok (Some img) /\
       fastNlMeansDenoising img (w_denoise_strength i) 7 21 = Ok dst /\
       apply (createCLAHE (w_contrast_limit i) (8, 8)) dst =
         Ok img_processed /\
       imencode ".png" img_processed = Ok buf /\
       st_image img_processed "Enhanced X-ray" ∈ trace r /\
       payloads (trace r) = [b64encode (snd buf)] /\
       base64.decode (b64encode (snd buf)) = Some (snd buf)) /\
  (forall file h clip file' h' clip',
     let a := run_pass (with_image i file h clip) s in
     let b := run_pass (with_image i file' h' clip') s in
     ending a = Done tt -> ending b = Done tt ->
     remote_calls (trace a) = remote_calls (trace b) /\
     written (trace a) = written (trace b)).
Proof.
  cbv zeta. split; [|split; [|split]].
  - unfold trace. pass_cases i; gate_cases i;
      rewrite ?remote_calls_app; cbn; intros q Hq; elem_cases; exact Hq.
  - intros s0 up b64 s1 l. rewrite col1_eq. cbv zeta.
    destruct (w_uploaded_file i) as [content|]; [|discriminate].
    destruct (imdecode content) as [[img|]|e0]; try discriminate.
    destruct (fastNlMeansDenoising img _ 7 21) as [dst|e0];
      try discriminate.
    destruct (apply _ dst) as [p|e0]; try discriminate.
    destruct (imencode ".png" p) as [buf|e0] eqn:Henc; try discriminate.
    intros [= <- <- <- <-]. exists p, buf.
    split; [elem_find|]. split; [exact Henc|]. split; [elem_find|].
    split; [reflexivity|]. apply decode_encode.
  - intros content0. unfold ending, trace.
    pass_cases i; gate_cases i; cbv [fst snd]; intros Hend Hup;
      try discriminate Hend; try discriminate Hup; injection Hup as ->;
      exists img, dst, p, r;
      (split; [assumption|]); (split; [assumption|]);
      (split; [assumption|]); (split; [assumption|]);
      (split; [elem_find|]); (split; [reflexivity|]); apply decode_encode.
  - intros file h clip file' h' clip'. unfold ending, trace.
    rewrite !run_pass_eq. cbv zeta.
    change (usable_key (with_image i file h clip)) with (usable_key i).
    change (usable_key (with_image i file' h' clip')) with (usable_key i).
    destruct (usable_key i) as [k|]; [|discriminate].
    destruct (client_outcome k) as [[model| |e] lc] eqn:Hclient;
      try discriminate.
    destruct (shown_quiet _ _ _ Hclient) as [Hs1 Hs2].
    set (sa := submitted (with_image i file h clip) (initialised s)).
    set (sb := submitted (with_image i file' h' clip') (initialised s)).
    destruct (col1_quiet (with_image i file h clip) sa) as (Ha1 & Ha2 & Ha3).
    destruct (col1_quiet (with_image i file' h' clip') sb)
      as (Hb1 & Hb2 & Hb3).
    destruct (col1 (with_image i file h clip) sa) as [[[ra| |ea] sa'] la];
      try discriminate.
    destruct (col1 (with_image i file' h' clip') sb) as [[[rb| |eb] sb'] lb];
      try discriminate.
    intros _ _. cbv [fst snd] in *.
    rewrite (Ha3 _ eq_refl), (Hb3 _ eq_refl). cbn [with_image w_uploaded_file].
    rewrite (col2_events_with_image i file h clip file file' model).
    rewrite (col2_events_with_image i file' h' clip' file' file' model).
    set (shown := top_events ++ lc ++ form_events ++ [st_columns]) in *.
    rewrite !remote_calls_app, !written_app, Hs1, Hs2, Ha1, Ha2, Hb1, Hb2.
    split; reflexivity.
Qed.

End TextOnly.

Lemma remote_call_is_text_only_witness :
  let r := @run_pass demo.cv demo.ai demo.visit empty_session in
  ending r = Done tt /\
  w_uploaded_file demo.visit = Some demo.picture_file /\
  remote_calls (trace r) = [form_prompt demo.visit] /\
  payloads (trace r) = ["AQEAAQEAECAwQA=="] /\
  base64.decode "AQEAAQEAECAwQA==" = Some (demo.encode_toy demo.picture).
Proof.
  cbv zeta. split; [reflexivity|]. split; [reflexivity|].
  split; [reflexivity|].
  destruct (@remote_call_is_text_only demo.cv demo.ai demo.visit
              empty_session) as (_ & _ & H3 & _).
  destruct (H3 demo.picture_file eq_refl eq_refl)
    as (img & dst & p & buf & Hd & Hn & Hc & He & _ & Hp & Hb).
  injection Hd as <-. injection Hn as <-. injection Hc as <-.
  injection He as <-. split; [exact Hp|exact Hb].
Defined.

(** ** The image pipeline under the OpenCV contract *)

Section Pipeline.

Context {cv : Cv2} {spec : Cv2Spec cv}.

Lemma nonempty_shape (a b : ImageMatrix) :
  shape a = shape b -> nonempty b -> nonempty a.
Proof.
  unfold shape, nonempty. intros [= -> ->]. tauto.
Qed.

(** Denoising then contrast enhancement, for any admissible slider values:
    both calls return, and the result has the size of the source. *)
Lemma enhance_spec (img : ImageMatrix) (h : Z) (clip : Q)
    (s : session_state) :
  nonempty img -> 0 < h -> (0 < clip)%Q ->
  exists dst img_processed,
    enhance img h clip s =
      (Done img_processed, s,
       [ called (c_fastNlMeansDenoising img h 7 21);
         called (c_clahe_apply clip (8, 8) dst) ]) /\
    shape img_processed = shape img.
Proof.
  intros Himg Hh Hclip.
  destruct (fastNlMeansDenoising_spec img h Himg Hh) as (dst & Hd & Hsd).
  destruct (apply_spec clip dst (nonempty_shape _ _ Hsd Himg) Hclip)
    as (p & Hp & Hsp).
  exists dst, p. split; [|congruence].
  unfold enhance. unfold_monad. rewrite Hd. simpl. rewrite Hp. reflexivity.
Qed.

(** C2.  Lines 90-91 and 105-109: for every buffer that decodes to an
    image, the enhancement with denoising strength 10 (windows 7 and 21) and
    contrast limit 2.0 (8x8 tiles) returns, and returns a matrix with the
    rows and columns of the decoded one; it leaves the store alone.  The
    behaviour of the two OpenCV filters is the contract [Cv2Spec]. *)
Theorem enhance_preserves_dimensions (buf : list byte) (img : ImageMatrix)
    (s : session_state) :
  imdecode buf = Ok (Some img) ->
  exists img_processed log,
    enhance img 10 2 s = (Done img_processed, s, log) /\
    shape img_processed = shape img.
Proof.
  intros Hdec.
  destruct (enhance_spec img 10 2 s) as (dst & p & He & Hs).
  - eapply imdecode_nonempty, Hdec.
  - lia.
  - reflexivity.
  - exists p. eexists. split; [exact He|exact Hs].
Qed.

(** C8.  Lines 115-116: for every matrix the enhancement produced from a
    decoded upload, encoding returns a base64 string; decoding that string
    gives back the bytes [imencode] produced, and those bytes decode to an
    image with the rows and columns of the enhanced matrix.  The behaviour
    of [imencode] and [imdecode] on PNG buffers is the contract
    [Cv2Spec]. *)
Theorem encode_round_trips (buf : list byte) (img img_processed : ImageMatrix)
    (h : Z) (clip : Q) (s : session_state) (log : list event) :
  imdecode buf = Ok (Some img) ->
  0 < h -> (0 < clip)%Q ->
  enhance img h clip s = (Done img_processed, s, log) ->
  exists base64_image png img',
    encode img_processed s =
      (Done base64_image, s,
       [ called (c_imencode ".png" img_processed);
         called (c_b64encode png) ]) /\
    base64.decode base64_image = Some png /\
    imdecode png = Ok (Some img') /\
    shape img' = shape img_processed.
Proof.
  intros Hdec Hh Hclip Henh.
  pose proof (imdecode_nonempty _ _ Hdec) as Himg.
  destruct (enhance_spec img h clip s Himg Hh Hclip)
    as (dst & p & He & Hs).
  rewrite He in Henh. injection Henh as <- _.
  destruct (imencode_png_spec p (nonempty_shape _ _ Hs Himg))
    as (png & img' & Henc & Hdec' & Hs').
  exists (b64encode png), png, img'.
  split; [|split; [|split]]; [|apply decode_encode|assumption..].
  unfold encode. unfold_monad. rewrite Henc. reflexivity.
Qed.

End Pipeline.

(** The toy library honours the contract. *)

Lemma unary_repeat (n : nat) (rest : list byte) :
  demo.unary (repeat x01 n ++ x00 :: rest) = (n, rest).
Proof.
  induction n as [|n IH]; [reflexivity|].
  simpl repeat. change ((x01 :: repeat x01 n) ++ x00 :: rest)
    with (x01 :: (repeat x01 n ++ x00 :: rest)).
  cbn [demo.unary]. change (Byte.eqb x01 x01) with true. cbv iota.
  now rewrite IH.
Qed.

Lemma decode_toy_encode_toy (img : ImageMatrix) :
  nonempty img -> demo.decode_toy (demo.encode_toy img) = Some img.
Proof.
  intros [Hr Hc]. unfold demo.decode_toy, demo.encode_toy.
  rewrite unary_repeat, unary_repeat.
  destruct img as [r c px]. simpl in *.
  destruct r; [lia|]. destruct c; [lia|]. reflexivity.
Qed.

Lemma decode_toy_nonempty (buf : list byte) (img : ImageMatrix) :
  demo.decode_toy buf = Some img -> nonempty img.
Proof.
  unfold demo.decode_toy.
  destruct (demo.unary buf) as [r rest].
  destruct (demo.unary rest) as [c px].
  destruct r; [discriminate|]. destruct c; [discriminate|].
  intros [= <-]. split; simpl; lia.
Qed.

Lemma demo_cv_spec : Cv2Spec demo.cv.
Proof.
  constructor.
  - intros buf img [= H]. eapply decode_toy_nonempty, H.
  - intros src h _ _. exists src. split; reflexivity.
  - intros clip src _ _. exists src. split; reflexivity.
  - intros img Himg. exists (demo.encode_toy img), img.
    split; [reflexivity|]. split; [|reflexivity].
    simpl. now rewrite decode_toy_encode_toy.
Qed.

Lemma enhance_preserves_dimensions_witness :
  @imdecode demo.cv demo.picture_file = Ok (Some demo.picture) /\
  exists img_processed log,
    @enhance demo.cv demo.picture 10 2 empty_session =
      (Done img_processed, empty_session, log) /\
    shape img_processed = (2%nat, 2%nat).
Proof.
  split; [reflexivity|].
  apply (@enhance_preserves_dimensions demo.cv demo_cv_spec
           demo.picture_file demo.picture empty_session).
  reflexivity.
Defined.

Lemma encode_round_trips_witness :
  exists base64_image png img',
    @encode demo.cv demo.picture empty_session =
      (Done base64_image, empty_session,
       [ called (c_imencode ".png" demo.picture);
         called (c_b64encode png) ]) /\
    base64.decode base64_image = Some png /\
    @imdecode demo.cv png = Ok (Some img') /\
    shape img' = shape demo.picture.
Proof.
  apply (@encode_round_trips demo.cv demo_cv_spec demo.picture_file
           demo.picture demo.picture 10 2 empty_session
           [ called (c_fastNlMeansDenoising demo.picture 10 7 21);
             called (c_clahe_apply 2 (8, 8) demo.picture) ]).
  - reflexivity.
  - lia.
  - reflexivity.
  - reflexivity.
Defined.

(** * Further properties of the script *)

(** ** Credential and client *)

Section Startup.

Context {cv : Cv2} {ai : Gemini}.

(** The key the script goes on with: non-empty, and taken from the secrets
    store when the store has the entry, from the environment only when it
    has not. *)
Lemma usable_key_Some (i : inputs) (k : string) :
  usable_key i = Some k <->
  k <> "" /\
  (secrets i !! GEMINI_API_KEY = Some k \/
   (secrets i !! GEMINI_API_KEY = None /\
    environ i !! GEMINI_API_KEY = Some k)).
Proof.
  unfold usable_key, lookup_api_key.
  destruct (secrets i !! GEMINI_API_KEY) as [v|].
  - destruct (String.eqb v "") eqn:Hv.
    + apply String.eqb_eq in Hv. subst v. split; [discriminate|].
      intros (Hk & [[= <-]|[[=] _]]). contradiction.
    + apply String.eqb_neq in Hv. split.
      * intros [= <-]. split; [exact Hv|now left].
      * intros (_ & [[= <-]|[[=] _]]). reflexivity.
  - destruct (environ i !! GEMINI_API_KEY) as [v|].
    + destruct (String.eqb v "") eqn:Hv.
      * apply String.eqb_eq in Hv. subst v. split; [discriminate|].
        intros (Hk & [[=]|[_ [= <-]]]). contradiction.
      * apply String.eqb_neq in Hv. split.
        -- intros [= <-]. split; [exact Hv|now right].
        -- intros (_ & [[=]|[_ [= <-]]]). reflexivity.
    + split; [discriminate|]. intros (_ & [[=]|[_ [=]]]).
Qed.

(** X1.  Lines 54-59: when [genai.configure] or the model constructor
    raises, the pass renders the page top and the message "Error configuring
    Gemini API: ..." with the text of the exception, and halts before the
    form: the store is only initialised. *)
Theorem client_failure_halts (i : inputs) (s : session_state) (k : string)
    (e : exn) :
  usable_key i = Some k ->
  (configure k = Raise e ->
   run_pass i s =
     (Halt, initialised s,
      top_events ++
      [ called (c_configure k);
        st_error ("Error configuring Gemini API: " +:+ str e) ])) /\
  (configure k = Ok tt -> new_GenerativeModel "gemini-pro" = Raise e ->
   run_pass i s =
     (Halt, initialised s,
      top_events ++
      [ called (c_configure k);
        called (c_GenerativeModel "gemini-pro");
        st_error ("Error configuring Gemini API: " +:+ str e) ])).
Proof.
  intros Hk. split.
  - intros Hc. rewrite run_pass_eq, Hk. unfold client_outcome.
    rewrite Hc. reflexivity.
  - intros Hc Hm. rewrite run_pass_eq, Hk. unfold client_outcome.
    rewrite Hc, Hm. reflexivity.
Qed.

(** X5.  Line 48: the secrets store shadows the environment.  Whatever key
    [genai.configure] is called with is non-empty and is the secrets entry,
    or the environment entry when the store has none; a non-empty secrets
    entry is always the one used; an empty secrets entry halts the pass even
    when the environment holds a key. *)
Theorem secrets_shadow_environment (i : inputs) (s : session_state) :
  let r := run_pass i s in
  (forall k, called (c_configure k) ∈ trace r ->
     k <> "" /\
     (secrets i !! GEMINI_API_KEY = Some k \/
      (secrets i !! GEMINI_API_KEY = None /\
       environ i !! GEMINI_API_KEY = Some k))) /\
  (forall v, secrets i !! GEMINI_API_KEY = Some v -> v <> "" ->
     called (c_configure v) ∈ trace r) /\
  (secrets i !! GEMINI_API_KEY = Some "" ->
     r = (Halt, initialised s, top_events ++ [st_error missing_key_message])).
Proof.
  cbv zeta. split; [|split].
  - intros q Hq. unfold trace in Hq. revert Hq.
    pass_cases i; gate_cases i; intros Hq; elem_cases;
      now apply usable_key_Some.
  - intros v Hv Hne.
    assert (Hk : usable_key i = Some v)
      by (apply usable_key_Some; split; [exact Hne|now left]).
    rewrite run_pass_eq, Hk. unfold client_outcome, trace.
    destruct (configure v) as [[]|e1];
      [destruct (new_GenerativeModel "gemini-pro") as [m|e1]|].
    + cbv zeta. destruct (col1 i _) as [[[r0| |e0] s'] l1]; cbv [snd];
        apply elem_of_app; left; apply elem_of_app; right; elem_find.
    + cbv [snd]. apply elem_of_app; right. elem_find.
    + cbv [snd]. apply elem_of_app; right. elem_find.
  - intros Hv.
    assert (Hk : usable_key i = None).
    { unfold usable_key, lookup_api_key. rewrite Hv. reflexivity. }
    rewrite run_pass_eq, Hk. reflexivity.
Qed.

End Startup.

Lemma client_failure_halts_witness :
  usable_key demo.visit = Some "secret-key" /\
  @run_pass demo.cv demo.ai_rejects_key demo.visit empty_session =
    (Halt, initialised empty_session,
     top_events ++
     [ called (c_configure "secret-key");
       st_error "Error configuring Gemini API: API key not valid" ]).
Proof.
  split; [reflexivity|].
  apply (@client_failure_halts demo.cv demo.ai_rejects_key demo.visit
           empty_session "secret-key" (Exn "API key not valid"));
    reflexivity.
Defined.

(** ** The store across passes *)

Section Store.

Context {cv : Cv2} {ai : Gemini}.





(** X4.  No exception raised by an OpenCV call, by a Gemini call or by a
    lookup in the session store or the patient dictionary escapes a pass,
    whatever these libraries raise: each such call sits in a [try], and the
    lookups outside one come after the initialisation and the form's update
    and cannot miss.  (The statement is about these sources of exceptions;
    Streamlit's own calls are outside it.) *)
Theorem pass_never_throws (i : inputs) (s : session_state) (e : exn) :
  ending (run_pass i s) <> Throw e.
Proof.
  unfold ending. pass_cases i; cbv [fst]; discriminate.
Qed.

(** X13.  The footer (lines 168-169) is rendered exactly by the passes that
    are not halted: after any [st.stop()] the page ends without it. *)
Theorem footer_iff_not_halted (i : inputs) (s : session_state) :
  let r := run_pass i s in
  st_markdown footer_text ∈ trace r <-> ending r = Done tt.
Proof.
  cbv zeta. unfold ending, trace.
  pass_cases i; gate_cases i; cbv [fst snd];
    (split; [intros Hin; elem_cases; reflexivity
            |intros Hend; first [discriminate Hend|elem_find]]).
Qed.


End Store.



(** ** The image pipeline inside a pass *)

Section Processing.

Context {cv : Cv2} {ai : Gemini}.

(** X6.  Lines 105-120: when the upload decodes but denoising, contrast
    enhancement or PNG encoding raises, the pass halts on the message
    "Error processing image: ..." with the text of the exception.  The
    original image has been shown and the form stored; the analysis section
    is not rendered and the remote model is not called. *)
Theorem processing_failure_halts (i : inputs) (s : session_state)
    (k : string) (model : GenerativeModel) (content : list byte)
    (img : ImageMatrix) (e : exn) :
  usable_key i = Some k ->
  configure k = Ok tt ->
  new_GenerativeModel "gemini-pro" = Ok model ->
  w_uploaded_file i = Some content ->
  imdecode content = Ok (Some img) ->
  (fastNlMeansDenoising img (w_denoise_strength i) 7 21 = Raise e \/
   exists dst,
     fastNlMeansDenoising img (w_denoise_strength i) 7 21 = Ok dst /\
     (apply (createCLAHE (w_contrast_limit i) (8, 8)) dst = Raise e \/
      exists p,
        apply (createCLAHE (w_contrast_limit i) (8, 8)) dst = Ok p /\
        imencode ".png" p = Raise e)) ->
  let r := run_pass i s in
  ending r = Halt /\
  last (trace r) = Some (st_error ("Error processing image: " +:+ str e)) /\
  st_image img "Original X-ray" ∈ trace r /\
  ~ st_header "Analysis & Results" ∈ trace r /\
  remote_calls (trace r) = [] /\
  patient_history (store r) = Some (form_record i).
Proof.
  intros Hk Hc Hm Hf Hd Hfail. cbv zeta.
  unfold ending, store, trace.
  rewrite run_pass_eq, Hk. unfold client_outcome. rewrite Hc, Hm.
  cbv zeta. rewrite col1_eq, Hf, Hd. cbv zeta.
  destruct Hfail as [H1|(dst & H1 & [H2|(p & H2 & H3)])];
    rewrite H1, ?H2, ?H3; cbv [fst snd];
    (split; [reflexivity|]); (split; [rewrite !last_app; reflexivity|]);
    (split; [elem_find|]); (split; [intros Hin; elem_cases|]);
    split; reflexivity.
Qed.

(** X7.  Lines 90-116, for a pass that runs to the end with a file: the
    image shown as "Original X-ray" is the decoded upload; the one shown as
    "Enhanced X-ray" is the contrast-enhanced (clip limit from the slider,
    8x8 tiles) denoised (strength from the slider, windows 7 and 21)
    original; the one payload computed is the base64 of its PNG encoding. *)
Theorem pipeline_data_flow (i : inputs) (s : session_state)
    (content : list byte) :
  w_uploaded_file i = Some content ->
  ending (run_pass i s) = Done tt ->
  exists img dst img_processed r,
    imdecode content = Ok (Some img) /\
    fastNlMeansDenoising img (w_denoise_strength i) 7 21 = Ok dst /\
    apply (createCLAHE (w_contrast_limit i) (8, 8)) dst = Ok img_processed /\
    imencode ".png" img_processed = Ok r /\
    st_image img "Original X-ray" ∈ trace (run_pass i s) /\
    st_image img_processed "Enhanced X-ray" ∈ trace (run_pass i s) /\
    payloads (trace (run_pass i s)) = [b64encode (snd r)].
Proof.
  unfold ending, trace.
  pass_cases i; gate_cases i; cbv [fst snd]; intros Hup Hend;
    try discriminate Hend; try discriminate Hup; injection Hup as ->;
    exists img, dst, p, r;
    (split; [assumption|]); (split; [assumption|]);
    (split; [assumption|]); (split; [assumption|]);
    (split; [elem_find|]); (split; [elem_find|]); reflexivity.
Qed.

End Processing.

Lemma processing_failure_halts_witness :
  let r := @run_pass demo.cv_out_of_memory demo.ai demo.visit empty_session in
  ending r = Halt /\
  last (trace r) =
    Some (st_error "Error processing image: Insufficient memory") /\
  remote_calls (trace r) = [].
Proof.
  cbv zeta.
  destruct (@processing_failure_halts demo.cv_out_of_memory demo.ai
              demo.visit empty_session "secret-key"
              {| model_name := "gemini-pro" |} demo.picture_file
              demo.picture (Exn "Insufficient memory"))
    as (H1 & H2 & _ & _ & H5 & _); try reflexivity.
  - left. reflexivity.
  - split; [exact H1|]. split; [exact H2|exact H5].
Defined.

Lemma pipeline_data_flow_witness :
  exists img dst img_processed r,
    @imdecode demo.cv demo.picture_file = Ok (Some img) /\
    @fastNlMeansDenoising demo.cv img 10 7 21 = Ok dst /\
    @apply demo.cv (createCLAHE 2 (8, 8)) dst = Ok img_processed /\
    @imencode demo.cv ".png" img_processed = Ok r /\
    st_image img "Original X-ray"
      ∈ trace (@run_pass demo.cv demo.ai demo.visit empty_session) /\
    st_image img_processed "Enhanced X-ray"
      ∈ trace (@run_pass demo.cv demo.ai demo.visit empty_session) /\
    payloads (trace (@run_pass demo.cv demo.ai demo.visit empty_session)) =
      [b64encode (snd r)].
Proof.
  apply (@pipeline_data_flow demo.cv demo.ai demo.visit empty_session
           demo.picture_file); reflexivity.
Defined.

(** ** The analysis step *)

(** Splits the right column on the name and the button only. *)
Ltac button_cases i :=
  try unfold col2_events; cbv [fst snd];
  try match goal with
      | |- context [String.eqb (w_name i) ""] =>
          destruct (String.eqb (w_name i) "") eqn:?Hname;
          [ | destruct (w_generate_analysis i) eqn:?Hgen ]
      end.

Section Analysis.

Context {cv : Cv2} {ai : Gemini}.

(** X8.  Lines 127-157: a pass calls the remote model once, with the prompt
    of the form, when it is not halted, has a file and a non-empty name and
    has the button pressed; otherwise it does not call it at all. *)
Theorem remote_call_exactly_when_asked (i : inputs) (s : session_state) :
  let r := run_pass i s in
  let asked :=
    ending r = Done tt /\ w_uploaded_file i <> None /\
    w_name i <> "" /\ w_generate_analysis i = true
  in
  (asked -> remote_calls (trace r) = [form_prompt i]) /\
  (~ asked -> remote_calls (trace r) = []).
Proof.
  cbv zeta. unfold ending, trace.
  pass_cases i; gate_cases i; cbv [fst snd]; rewrite <- ?String.eqb_neq;
    (split;
     [ intros (H1 & H2 & H3 & H4);
       first [discriminate H1|congruence|reflexivity]
     | intros Hno;
       first [reflexivity
             |exfalso; apply Hno; repeat split; congruence] ]).
Qed.

(** X9.  Lines 157-159 and 164-165: when the call returns and the response
    has a text, the pass renders what the same pass renders with the button
    left alone, then the spinner, the heading "### Analysis Results", the
    text as returned, and the disclaimer, and runs on to the footer. *)
Theorem answer_is_rendered (i : inputs) (s : session_state)
    (response : Response) (body : string) :
  let r := run_pass i s in
  remote_calls (trace r) <> [] ->
  (forall m, new_GenerativeModel "gemini-pro" = Ok m ->
             generate_content m (form_prompt i) = Ok response) ->
  text response = Ok body ->
  exists pre,
    trace (run_pass (unpressed i) s) = pre ++ footer_events /\
    trace r =
      pre ++
      [ st_spinner "Analyzing X-ray...";
        called (c_generate_content (form_prompt i));
        st_markdown "### Analysis Results";
        st_write body ] ++
      disclaimer_events ++ footer_events /\
    ending r = Done tt /\
    written (trace r) = [body].
Proof.
  cbv zeta. intros Hcalled Hreturns Hbody.
  rewrite run_pass_unpressed_eq. unfold ending, store, trace in *.
  revert Hcalled.
  pass_cases i; button_cases i; intros Hcalled;
    try (exfalso; apply Hcalled; reflexivity).
  unfold analysis_events. rewrite (Hreturns _ eq_refl), Hbody.
  eexists. split; [|split; [|split]]; [ | | reflexivity | ].
  - rewrite !List.app_assoc. reflexivity.
  - rewrite <- !List.app_assoc. reflexivity.
  - rewrite !written_app. reflexivity.
Qed.

(** X10.  Lines 158-162: when the call returns but reading [response.text]
    raises, the heading "### Analysis Results" is already on the page; the
    error message follows it, nothing is written, and the pass goes on to
    the disclaimer and the footer. *)
Theorem blocked_answer_is_reported (i : inputs) (s : session_state)
    (response : Response) (e : exn) :
  let r := run_pass i s in
  remote_calls (trace r) <> [] ->
  (forall m, new_GenerativeModel "gemini-pro" = Ok m ->
             generate_content m (form_prompt i) = Ok response) ->
  text response = Raise e ->
  exists pre,
    trace (run_pass (unpressed i) s) = pre ++ footer_events /\
    trace r =
      pre ++
      [ st_spinner "Analyzing X-ray...";
        called (c_generate_content (form_prompt i));
        st_markdown "### Analysis Results";
        st_error ("Error generating analysis: " +:+ str e) ] ++
      disclaimer_events ++ footer_events /\
    ending r = Done tt /\
    written (trace r) = [].
Proof.
  cbv zeta. intros Hcalled Hreturns Hbody.
  rewrite run_pass_unpressed_eq. unfold ending, store, trace in *.
  revert Hcalled.
  pass_cases i; button_cases i; intros Hcalled;
    try (exfalso; apply Hcalled; reflexivity).
  unfold analysis_events. rewrite (Hreturns _ eq_refl), Hbody.
  eexists. split; [|split; [|split]]; [ | | reflexivity | ].
  - rewrite !List.app_assoc. reflexivity.
  - rewrite <- !List.app_assoc. reflexivity.
  - rewrite !written_app. reflexivity.
Qed.

(** X12.  Lines 136-162 on any store and any focus areas: the analysis step
    always completes, leaves the store as it found it and calls the remote
    model at most once.  When the record is missing or lacks a key the
    prompt needs, it calls nothing and renders one error message. *)
Theorem analysis_never_escapes (model : GenerativeModel)
    (analysis_type : list string) (s : session_state) :
  exists l,
    analysis model analysis_type s = (Done tt, s, l) /\
    (length (remote_calls l) <= 1)%nat /\
    ((forall d p, patient_history s = Some d ->
                  build_prompt d analysis_type <> Ok p) ->
     remote_calls l = [] /\
     exists m, l = [st_error ("Error generating analysis: " +:+ m)]).
Proof.
  unfold analysis, getattr_patient_history. unfold_monad.
  destruct (patient_history s) as [d|]; cbn.
  - destruct (build_prompt d analysis_type) as [p|e0] eqn:Hp; cbn.
    + destruct (generate_content model p) as [response|e0]; cbn.
      * destruct (text response) as [body|e0]; cbn;
          (eexists; split; [reflexivity|]; split; [cbn; lia|]);
          intros Hno; exfalso; eapply Hno; eauto.
      * eexists; split; [reflexivity|]; split; [cbn; lia|].
        intros Hno; exfalso; eapply Hno; eauto.
    + eexists; split; [reflexivity|]; split; [cbn; lia|].
      intros _. split; [reflexivity|]. eexists; reflexivity.
  - eexists; split; [reflexivity|]; split; [cbn; lia|].
    intros _. split; [reflexivity|]. eexists; reflexivity.
Qed.

End Analysis.

(** X11.  Lines 141-147: the prompt is built exactly when the stored record
    has the seven keys the template reads; [last_dental_visit] is stored by
    the form but never read.  A record without [name] raises
    [KeyError: 'name'] whatever else it holds. *)
Theorem build_prompt_reads_seven_keys (d : dict)
    (analysis_type : list string) :
  ((exists p, build_prompt d analysis_type = Ok p) <->
   is_Some (name d) /\ is_Some (age d) /\ is_Some (gender d) /\
   is_Some (medical_history d) /\ is_Some (dental_complaints d) /\
   is_Some (previous_treatments d) /\ is_Some (smoking d)) /\
  (forall v,
     build_prompt
       {| name := name d; age := age d; gender := gender d;
          medical_history := medical_history d;
          dental_complaints := dental_complaints d;
          previous_treatments := previous_treatments d;
          smoking := smoking d; last_dental_visit := v |} analysis_type =
     build_prompt d analysis_type) /\
  (name d = None -> build_prompt d analysis_type = Raise (Exn "'name'")).
Proof.
  destruct d as [n a g h c t sm v0]. cbn [name age gender medical_history
    dental_complaints previous_treatments smoking last_dental_visit].
  split; [|split].
  - destruct n, a, g, h, c, t, sm; cbn;
      (split;
       [ intros [q Hq]; first [discriminate Hq|repeat split; eauto]
       | intros (H1 & H2 & H3 & H4 & H5 & H6 & H7);
         first [ eexists; reflexivity
               | exfalso;
                 repeat match goal with
                        | H : is_Some None |- _ => destruct H as [? [=]]
                        end ] ]).
  - intros v. reflexivity.
  - intros ->. reflexivity.
Qed.

Lemma answer_is_rendered_witness :
  let r := @run_pass demo.cv demo.ai demo.visit empty_session in
  remote_calls (trace r) <> [] /\
  ending r = Done tt /\
  written (trace r) = ["No abnormalities found."].
Proof.
  cbv zeta.
  destruct (@answer_is_rendered demo.cv demo.ai demo.visit empty_session
              {| text := Ok "No abnormalities found." |}
              "No abnormalities found.")
    as (pre & _ & _ & H3 & H4).
  - vm_compute. discriminate.
  - intros m _. reflexivity.
  - reflexivity.
  - split; [vm_compute; discriminate|]. split; [exact H3|exact H4].
Defined.

Lemma blocked_answer_is_reported_witness :
  let r := @run_pass demo.cv demo.ai_blocked demo.visit empty_session in
  remote_calls (trace r) <> [] /\
  ending r = Done tt /\
  written (trace r) = [].
Proof.
  cbv zeta.
  destruct (@blocked_answer_is_reported demo.cv demo.ai_blocked demo.visit
              empty_session {| text := Raise (Exn "response blocked") |}
              (Exn "response blocked"))
    as (pre & _ & _ & H3 & H4).
  - vm_compute. discriminate.
  - intros m _. reflexivity.
  - reflexivity.
  - split; [vm_compute; discriminate|]. split; [exact H3|exact H4].
Defined.

(** ** Sessions and the left column *)

Section Sessions.

Context {cv : Cv2} {ai : Gemini}.


(** X15.  Lines 83-124 read nothing but the uploaded file and the two
    sliders: two passes that agree on these render the same left column,
    make the same OpenCV calls and halt or go on alike, whatever the form,
    the focus areas, the button and the store. *)
Theorem left_column_reads_file_and_sliders (i i' : inputs)
    (s s' : session_state) :
  w_uploaded_file i = w_uploaded_file i' ->
  w_denoise_strength i = w_denoise_strength i' ->
  w_contrast_limit i = w_contrast_limit i' ->
  fst (fst (col1 i s)) = fst (fst (col1 i' s')) /\
  snd (col1 i s) = snd (col1 i' s').
Proof.
  intros Hf Hh Hc. rewrite !col1_eq. cbv zeta. rewrite <- Hf, <- Hh, <- Hc.
  destruct (w_uploaded_file i) as [content|]; [|now split].
  destruct (imdecode content) as [[img|]|e0]; try now split.
  destruct (fastNlMeansDenoising img _ 7 21) as [dst|e0]; try now split.
  destruct (apply _ dst) as [p|e0]; try now split.
  destruct (imencode ".png" p) as [r|e0]; now split.
Qed.

(** X16.  Lines 41-51 over a session: as long as no pass finds a credential,
    nothing but the initialisation reaches the store: after any number of
    such passes it holds the record it started with (the empty dictionary
    in a fresh session) and the flag. *)
Theorem session_without_key_stores_nothing (passes : list inputs)
    (s : session_state) :
  Forall (fun i => no_api_key (lookup_api_key i) = true) passes ->
  passes <> [] ->
  run_session passes s = initialised s.
Proof.
  intros Hall. revert s.
  induction Hall as [|i passes Hi Hall IH]; intros s Hne; [contradiction|].
  simpl. apply usable_key_None in Hi.
  assert (Hs : store (run_pass i s) = initialised s)
    by (rewrite run_pass_eq, Hi; reflexivity).
  rewrite Hs. destruct passes as [|j passes]; [reflexivity|].
  rewrite IH by discriminate. reflexivity.
Qed.


End Sessions.

Lemma left_column_reads_file_and_sliders_witness :
  snd (@col1 demo.cv demo.visit empty_session) =
  snd (@col1 demo.cv (unpressed demo.visit)
         (store (@run_pass demo.cv demo.ai demo.visit empty_session))).
Proof.
  apply (@left_column_reads_file_and_sliders demo.cv demo.visit
           (unpressed demo.visit) empty_session
           (store (@run_pass demo.cv demo.ai demo.visit empty_session)));
    reflexivity.
Defined.

Lemma session_without_key_stores_nothing_witness :
  @run_session demo.cv demo.ai
    [demo.visit_without_key; demo.visit_without_key] empty_session =
  initialised empty_session.
Proof.
  apply (@session_without_key_stores_nothing demo.cv demo.ai).
  - repeat constructor.
  - discriminate.
Defined.

